(** * Fireplexity search route: a shallow embedding and its properties

    The development follows [src/app/page.tsx], whose second half is the
    route handler [POST] of [/api/fireplexity/search]: request validation,
    retrieval, context assembly, the two generation tasks, the multiplexed
    data stream and the error classification of the [catch] block.

    JavaScript strings are sequences of UTF-16 code units, JavaScript values
    are an inductive type with the language's truthiness and [||], and the
    handler is written in a small state-and-exception monad whose state is
    the data stream together with the log of provider calls. *)

From Stdlib Require Import Strings.String Strings.Ascii Numbers.DecimalString.
From Stdlib Require Import List ZArith NArith Lia Bool Arith.
From Stdlib Require DecimalPos DecimalZ.
Import ListNotations.

Set Implicit Arguments.
Set Warnings "-register-all".

(** ** JavaScript strings *)

Module JS.

(** A string is the list of its UTF-16 code units; [length] is [.length]. *)
Definition jstring := list N.

Definition lit (s : string) : jstring :=
  map N_of_ascii (list_ascii_of_string s).

(** The code unit of the escape [\n]. *)
Definition nl : N := 10%N.

Fixpoint jstring_eqb (a b : jstring) : bool :=
  match a, b with
  | [], [] => true
  | x :: a', y :: b' => (x =? y)%N && jstring_eqb a' b'
  | _, _ => false
  end.

(** ECMAScript WhiteSpace and LineTerminator code points, the ones
    [String.prototype.trim] strips.  All of them are in the basic plane, so
    a test on single code units is exact. *)
Definition is_white_space (c : N) : bool :=
  ((9 <=? c) && (c <=? 13) || (c =? 32) || (c =? 160) || (c =? 5760)
   || (8192 <=? c) && (c <=? 8202) || (c =? 8232) || (c =? 8233)
   || (c =? 8239) || (c =? 8287) || (c =? 12288) || (c =? 65279))%N.

(** [String.prototype.trimStart]. *)
Fixpoint trimStart (s : jstring) : jstring :=
  match s with
  | [] => []
  | c :: r => if is_white_space c then trimStart r else s
  end.

(** [String.prototype.trimEnd]. *)
Fixpoint trimEnd (s : jstring) : jstring :=
  match s with
  | [] => []
  | c :: r =>
      match trimEnd r with
      | [] => if is_white_space c then [] else [c]
      | t => c :: t
      end
  end.

(** [String.prototype.trim]. *)
Definition trim (s : jstring) : jstring := trimEnd (trimStart s).

(** [s.split(sep)] for a separator of one code unit: the pieces between the
    occurrences of [sep]; the empty string gives one empty piece. *)
Fixpoint split (sep : N) (s : jstring) : list jstring :=
  match s with
  | [] => [[]]
  | c :: r =>
      if (c =? sep)%N then [] :: split sep r
      else match split sep r with
           | h :: t => (c :: h) :: t
           | [] => [[c]]
           end
  end.

(** [Array.prototype.join]. *)
Fixpoint join (sep : jstring) (l : list jstring) : jstring :=
  match l with
  | [] => []
  | [x] => x
  | x :: r => x ++ sep ++ join sep r
  end.

(** The index arithmetic of [Array.prototype.slice]: a negative index
    counts from the end, and both ends are clamped to the array. *)
Definition relative_index (len k : Z) : Z :=
  if (k <? 0)%Z then Z.max (len + k) 0 else Z.min k len.

(** [Array.prototype.slice(start, end)]. *)
Definition slice {A} (start end_ : Z) (l : list A) : list A :=
  let len := Z.of_nat (length l) in
  let k := relative_index len start in
  let final := relative_index len end_ in
  firstn (Z.to_nat (final - k)) (skipn (Z.to_nat k) l).

(** [Array.prototype.map] with the element index, as the callback
    [(source, index) => ...] receives it. *)
Fixpoint map_from {A B} (f : A -> nat -> B) (i : nat) (l : list A) : list B :=
  match l with
  | [] => []
  | x :: r => f x i :: map_from f (S i) r
  end.

Definition mapi {A B} (f : A -> nat -> B) (l : list A) : list B :=
  map_from f 0 l.

(** Number-to-string conversion on integers: the decimal notation, which
    is what the language prints for an integer below [10^21]. *)
Definition string_of_Z (z : Z) : jstring :=
  lit (NilZero.string_of_int (Z.to_int z)).

(** *** Values

    Numbers are modelled on the integers (status codes, indices, lengths);
    fractions, NaN and the infinities are outside the model.  An object is
    the association list of its own properties, read at the first binding
    of a key. *)
Inductive value : Type :=
| VUndefined
| VNull
| VBool (b : bool)
| VNum (z : Z)
| VStr (s : jstring)
| VArr (elems : list value)
| VObj (fields : list (jstring * value)).

(** ToBoolean. *)
Definition truthy (v : value) : bool :=
  match v with
  | VUndefined | VNull => false
  | VBool b => b
  | VNum z => negb (z =? 0)%Z
  | VStr s => negb (length s =? 0)
  | VArr _ | VObj _ => true
  end.

(** [a || b]. *)
Definition or_ (a b : value) : value := if truthy a then a else b.

(** [a && b]. *)
Definition and_ (a b : value) : value := if truthy a then b else a.

Fixpoint obj_get (fields : list (jstring * value)) (k : jstring) : value :=
  match fields with
  | [] => VUndefined
  | (k', v) :: r => if jstring_eqb k' k then v else obj_get r k
  end.

(** The [in] operator on an object's own properties: a property whose
    value is [undefined] is still there. *)
Fixpoint obj_has (fields : list (jstring * value)) (k : jstring) : bool :=
  match fields with
  | [] => false
  | (k', _) :: r => jstring_eqb k' k || obj_has r k
  end.

(** [v.k] for a [v] that is neither [null] nor [undefined], on the
    property names the route reads ([content], [url], [title], [metadata],
    ...): none of them is a built-in of strings, arrays, numbers or
    booleans, so only objects answer. *)
Definition get (v : value) (k : jstring) : value :=
  match v with
  | VObj fields => obj_get fields k
  | _ => VUndefined
  end.

(** [v?.k]. *)
Definition get_opt (v : value) (k : jstring) : value :=
  match v with
  | VUndefined | VNull => VUndefined
  | _ => get v k
  end.

(** ToString, as a template literal and a property key apply it. *)
Fixpoint to_string (v : value) : jstring :=
  match v with
  | VUndefined => lit "undefined"
  | VNull => lit "null"
  | VBool true => lit "true"
  | VBool false => lit "false"
  | VNum z => string_of_Z z
  | VStr s => s
  | VArr elems =>
      join (lit ",")
        ((fix each (l : list value) : list jstring :=
            match l with
            | [] => []
            | x :: r =>
                match x with
                | VUndefined | VNull => []
                | _ => to_string x
                end :: each r
            end) elems)
  | VObj _ => lit "[object Object]"
  end.

(** [arr[arr.length - 1]]: the last element, [undefined] on an empty array. *)
Definition last_elem (arr : list value) : value := last arr VUndefined.

End JS.

Import JS.

(** ** The data stream and the handler's effects *)

(** A caught value: an instance of [Error] with its properties (a provider
    error carries [message], and [statusCode] or [status]), or any other
    thrown value. *)
Inductive thrown : Type :=
| ErrorInstance (fields : list (jstring * value))
| Other (v : value).

(** What travels on the response: the objects given to
    [dataStream.writeData], and the text fragments that
    [result.mergeIntoDataStream] forwards. *)
Inductive part : Type :=
| Data (v : value)
| Text (fragment : jstring).

(** Calls made to the two providers. *)
Inductive call : Type :=
| SearchCall (query : value) (limit : Z)
| GenerateTextCall
| StreamTextCall (prompt : jstring).

Record state : Type := mkState {
  stream : list part;   (* the data stream, oldest part first *)
  calls : list call     (* provider calls, oldest first *)
}.

Definition initial : state := mkState [] [].

Inductive outcome (A : Type) : Type :=
| Returned (a : A)
| Thrown (e : thrown).
Arguments Returned {A} a.
Arguments Thrown {A} e.

(** Computations of the handler: they read and extend the state and either
    return or throw. *)
Definition M (A : Type) : Type := state -> outcome A * state.

Definition ret {A} (a : A) : M A := fun st => (Returned a, st).

Definition throw {A} (e : thrown) : M A := fun st => (Thrown e, st).

Definition bind {A B} (c : M A) (k : A -> M B) : M B :=
  fun st =>
    match c st with
    | (Returned a, st') => k a st'
    | (Thrown e, st') => (Thrown e, st')
    end.

(** [try { body } catch (error) { handler }]. *)
Definition try_catch {A} (body : M A) (handler : thrown -> M A) : M A :=
  fun st =>
    match body st with
    | (Returned a, st') => (Returned a, st')
    | (Thrown e, st') => handler e st'
    end.

Declare Scope route_scope.
Delimit Scope route_scope with route.
Notation "x <- c ;; k" := (bind c (fun x => k))
  (at level 61, c at next level, right associativity) : route_scope.
Notation "c ;; k" := (bind c (fun _ => k))
  (at level 61, right associativity) : route_scope.
Open Scope route_scope.

(** [dataStream.writeData(v)]. *)
Definition writeData (v : value) : M unit :=
  fun st => (Returned tt, mkState (stream st ++ [Data v]) (calls st)).

(** A text fragment forwarded from the answer stream. *)
Definition writeText (fragment : jstring) : M unit :=
  fun st => (Returned tt, mkState (stream st ++ [Text fragment]) (calls st)).

Definition log_call (c : call) : M unit :=
  fun st => (Returned tt, mkState (stream st) (calls st ++ [c])).

Fixpoint for_each {A} (f : A -> M unit) (l : list A) : M unit :=
  match l with
  | [] => ret tt
  | x :: r => f x ;; for_each f r
  end.

(** *** Providers

    The behaviour of the two providers during one turn.  The handler only
    consumes what they answer, so their answers are given, not computed.
    The fragments of the answer task are the ones forwarded to the data
    stream before [Promise.all] settles; when the task succeeds they are all
    of them. *)
Record search_data : Type := mkSearchData {
  data : option (list (list (jstring * value)))
    (* [searchData.data]: absent, or an array of result objects *)
}.

Record providers : Type := mkProviders {
  search : thrown + search_data;        (* [firecrawl.search] rejects or resolves *)
  answer_fragments : list jstring;      (* forwarded by [mergeIntoDataStream] *)
  answer_text : thrown + jstring;       (* [result.text] rejects or resolves *)
  follow_up : thrown + jstring;         (* [generateText] rejects, or resolves with [.text] *)
  follow_up_settles_first : bool        (* which rejection [Promise.all] sees when both reject *)
}.

(** The two library functions the route imports; [src/] has their call
    sites only. *)
Class Imports : Type := mkImports {
  detectCompanyTicker : value -> value;
  selectRelevantContent : value -> value -> Z -> jstring
}.

(** ** The route handler *)

Section Route.

Context {imports : Imports}.

(** The callback of [searchData.data?.map(...)]: the object literal built
    from one search result. *)
Definition transform_item (item : list (jstring * value)) : value :=
  let metadata := obj_get item (lit "metadata") in
  VObj
    [ (lit "url", obj_get item (lit "url"));
      (lit "title", or_ (obj_get item (lit "title")) (obj_get item (lit "url")));
      (lit "description",
        or_ (obj_get item (lit "description")) (get_opt metadata (lit "description")));
      (lit "content", obj_get item (lit "content"));
      (lit "markdown", obj_get item (lit "markdown"));
      (lit "publishedDate", obj_get item (lit "publishedDate"));
      (lit "author", obj_get item (lit "author"));
      (lit "image", or_ (get_opt metadata (lit "ogImage")) (get_opt metadata (lit "image")));
      (lit "favicon", get_opt metadata (lit "favicon"));
      (lit "siteName", get_opt metadata (lit "siteName")) ].

(** [searchData.data?.map(...).filter((item) => item.url) || []]. *)
Definition transform_sources (searchData : search_data) : list value :=
  match data searchData with
  | None => []
  | Some items =>
      filter (fun item => truthy (get item (lit "url"))) (map transform_item items)
  end.

(** The callback of [sources.map(...)] that builds one context block. *)
Definition context_block (query : value) (source : value) (index : nat) : jstring :=
  let content :=
    or_ (or_ (get source (lit "markdown")) (get source (lit "content"))) (VStr []) in
  let relevantContent := selectRelevantContent content query 2000 in
  lit "[" ++ string_of_Z (Z.of_nat index + 1) ++ lit "] "
    ++ to_string (get source (lit "title")) ++ [nl]
    ++ lit "URL: " ++ to_string (get source (lit "url")) ++ [nl]
    ++ relevantContent.

(** The separator given to [join]: a rule between two blank lines. *)
Definition delimiter : jstring := [nl; nl] ++ lit "---" ++ [nl; nl].

Definition build_context (sources : list value) (query : value) : jstring :=
  join delimiter (mapi (context_block query) sources).

(** The content of the last user message of the answer task. *)
Definition answer_prompt (query : value) (context : jstring) : jstring :=
  lit "Answer this query: " ++ [34%N] ++ to_string query ++ [34%N; nl; nl]
    ++ lit "Based on these sources:" ++ [nl] ++ context.

(** The processing of [followUpResponse.text]. *)
Definition followUpQuestions (text : jstring) : list jstring :=
  slice 0 5
    (filter (fun q => 0 <? length q) (map trim (split nl text))).

(** *** The catch block: error classification *)

(** [error instanceof Error ? error.message : 'Unknown error']. *)
Definition errorMessage (error : thrown) : value :=
  match error with
  | ErrorInstance fields => obj_get fields (lit "message")
  | Other _ => VStr (lit "Unknown error")
  end.

(** The own properties of a caught value that passes
    [error && typeof error === 'object']; nothing for the others.  An
    array is an object without named properties of this kind. *)
Definition object_fields (error : thrown) : option (list (jstring * value)) :=
  match error with
  | ErrorInstance fields => Some fields
  | Other (VObj fields) => Some fields
  | Other (VArr _) => Some []
  | Other _ => None
  end.

(** The conditional that reads [error.statusCode], else [error.status],
    else [undefined]. *)
Definition statusCode (error : thrown) : value :=
  match object_fields error with
  | Some fields =>
      if obj_has fields (lit "statusCode") then obj_get fields (lit "statusCode")
      else if obj_has fields (lit "status") then obj_get fields (lit "status")
      else VUndefined
  | None => VUndefined
  end.

Definition entry (error suggestion : string) : value :=
  VObj [ (lit "error", VStr (lit error)); (lit "suggestion", VStr (lit suggestion)) ].

(** The own properties of the table [errorResponses]. *)
Definition errorResponses : list (jstring * value) :=
  [ (lit "401", entry "Invalid API key"
                  "Please check your Firecrawl API key is correct.");
    (lit "402", entry "Insufficient credits"
                  "You've run out of Firecrawl credits. Please upgrade your plan.");
    (lit "429", entry "Rate limit exceeded"
                  "Too many requests. Please wait a moment and try again.");
    (lit "504", entry "Request timeout"
                  "The search took too long. Try a simpler query or fewer sources.") ].

(** The property names every object literal inherits from
    [Object.prototype]. *)
Definition Object_prototype_keys : list jstring :=
  map lit
    [ "constructor"; "__defineGetter__"; "__defineSetter__"; "hasOwnProperty";
      "__lookupGetter__"; "__lookupSetter__"; "isPrototypeOf";
      "propertyIsEnumerable"; "toString"; "valueOf"; "__proto__";
      "toLocaleString" ]%string.

(** [errorResponses[key]]: the key is converted to a property name; an own
    entry answers first, then the inherited built-ins, which are objects
    with neither [error] nor [suggestion]. *)
Definition errorResponses_at (key : value) : value :=
  let name := to_string key in
  if obj_has errorResponses name then obj_get errorResponses name
  else if existsb (jstring_eqb name) Object_prototype_keys then VObj []
  else VUndefined.

Definition errorResponse (error : thrown) : value :=
  if truthy (and_ (statusCode error) (errorResponses_at (statusCode error)))
  then errorResponses_at (statusCode error)
  else VObj [ (lit "error", errorMessage error) ].

(** The object [errorData] as it is when it is written. *)
Definition errorData (error : thrown) : value :=
  let response := errorResponse error in
  VObj
    ([ (lit "type", VStr (lit "error")); (lit "error", get response (lit "error")) ]
     ++ (if truthy (get response (lit "suggestion"))
         then [ (lit "suggestion", get response (lit "suggestion")) ] else [])
     ++ (if truthy (statusCode error)
         then [ (lit "statusCode", statusCode error) ] else [])).

(** *** The body of [execute] *)

Definition status_event (message : string) : value :=
  VObj [ (lit "type", VStr (lit "status")); (lit "message", VStr (lit message)) ].

Definition sources_event (sources : list value) : value :=
  VObj [ (lit "type", VStr (lit "sources")); (lit "sources", VArr sources) ].

Definition ticker_event (ticker : value) : value :=
  VObj [ (lit "type", VStr (lit "ticker")); (lit "symbol", ticker) ].

Definition follow_up_event (questions : list jstring) : value :=
  VObj [ (lit "type", VStr (lit "follow_up_questions"));
         (lit "questions", VArr (map VStr questions)) ].

Definition complete_event : value :=
  VObj [ (lit "type", VStr (lit "complete")) ].

(** [await firecrawl.search(query, { limit: 6, ... })]. *)
Definition firecrawl_search (P : providers) (query : value) : M search_data :=
  log_call (SearchCall query 6) ;;
  match search P with
  | inl error => throw error
  | inr searchData => ret searchData
  end.

(** How [Promise.all([result.text, followUpPromise])] settles: with both
    results, or with the rejection that comes first. *)
Definition settled (P : providers) : thrown + (jstring * jstring) :=
  match answer_text P, follow_up P with
  | inr fullAnswer, inr text => inr (fullAnswer, text)
  | inl error, inr _ => inl error
  | inr _, inl error => inl error
  | inl e1, inl e2 => inl (if follow_up_settles_first P then e2 else e1)
  end.

(** [await Promise.all([result.text, followUpPromise])]. *)
Definition promise_all (P : providers) : M (jstring * jstring) :=
  match settled P with
  | inl error => throw error
  | inr results => ret results
  end.

(** The [try] block of [execute]. *)
Definition execute_try (P : providers) (query : value) : M unit :=
  writeData (status_event "Starting search...") ;;
  writeData (status_event "Searching for relevant sources...") ;;
  searchData <- firecrawl_search P query ;;
  let sources := transform_sources searchData in
  writeData (sources_event sources) ;;
  writeData (status_event "Analyzing sources and generating answer...") ;;
  let ticker := detectCompanyTicker query in
  (if truthy ticker then writeData (ticker_event ticker) else ret tt) ;;
  let context := build_context sources query in
  log_call GenerateTextCall ;;
  log_call (StreamTextCall (answer_prompt query context)) ;;
  for_each writeText (answer_fragments P) ;;
  joined <- promise_all P ;;
  writeData (follow_up_event (followUpQuestions (snd joined))) ;;
  writeData complete_event.

(** The [catch] block of [execute]. *)
Definition execute_catch (error : thrown) : M unit :=
  writeData (errorData error).

Definition execute (P : providers) (query : value) : M unit :=
  try_catch (execute_try P query) execute_catch.

(** *** The handler [POST] *)

(** The body [request.json()] resolves with: [null], or a JSON value read
    through its properties [messages], [query] and [firecrawlApiKey]
    (each [undefined] when absent, so a body that is a number, a string or an
    array is the body without properties).  [messages] stands for
    [body.messages || []] and is an array, as the chat client sends it. *)
Inductive body : Type :=
| BodyNull
| Body (messages : list value) (query : value) (firecrawlApiKey : value).

Record request : Type := mkRequest {
  json : thrown + body   (* [request.json()] rejects or resolves *)
}.

Record process_env : Type := mkEnv {
  FIRECRAWL_API_KEY : value;
  OPENAI_API_KEY : value
}.

Inductive response : Type :=
| JsonResponse (content : value) (status : Z)
| DataStreamResponse (header : jstring * jstring).

(** The [TypeError] of reading a property of [null]; the text is the
    engine's. *)
Definition null_TypeError : thrown :=
  ErrorInstance
    [ (lit "message", VStr (lit "Cannot read properties of null (reading 'messages')")) ].

(** The outer catch block. *)
Definition search_failed (error : thrown) : response :=
  let errorMessage := errorMessage error in
  let errorStack :=
    match error with
    | ErrorInstance fields => obj_get fields (lit "stack")
    | Other _ => VStr []
    end in
  JsonResponse
    (VObj [ (lit "error", VStr (lit "Search failed"));
            (lit "message", errorMessage);
            (lit "details", errorStack) ])
    500.

Definition error_response (text : string) (status : Z) : response :=
  JsonResponse (VObj [ (lit "error", VStr (lit text)) ]) status.

(** [messages[messages.length - 1]?.content || body.query]. *)
Definition extract_query (messages : list value) (query : value) : value :=
  or_ (get_opt (last_elem messages) (lit "content")) query.

Definition POST (env : process_env) (P : providers) (req : request)
  : response * state :=
  match json req with
  | inl error => (search_failed error, initial)
  | inr BodyNull => (search_failed null_TypeError, initial)
  | inr (Body messages body_query body_key) =>
      let query := extract_query messages body_query in
      if negb (truthy query) then (error_response "Query is required" 400, initial)
      else
        let firecrawlApiKey := or_ body_key (FIRECRAWL_API_KEY env) in
        let openaiApiKey := OPENAI_API_KEY env in
        if negb (truthy firecrawlApiKey)
        then (error_response "Firecrawl API key not configured" 500, initial)
        else if negb (truthy openaiApiKey)
        then (error_response "OpenAI API key not configured" 500, initial)
        else (DataStreamResponse (lit "x-vercel-ai-data-stream", lit "v1"),
              snd (execute P query initial))
  end.

End Route.

(** ** Reading the data stream *)

(** The kinds of part a consumer tells apart: a data part by its [type]
    discriminator, a text part as a token fragment.  The detected entity
    travels under the discriminator [ticker]. *)
Inductive kind : Type :=
| KStatus | KSources | KSymbol | KToken | KFollowUp | KComplete | KError | KOther.

Definition kind_eqb (a b : kind) : bool :=
  match a, b with
  | KStatus, KStatus | KSources, KSources | KSymbol, KSymbol | KToken, KToken
  | KFollowUp, KFollowUp | KComplete, KComplete | KError, KError
  | KOther, KOther => true
  | _, _ => false
  end.

Definition kind_of_type (t : jstring) : kind :=
  if jstring_eqb t (lit "status") then KStatus
  else if jstring_eqb t (lit "sources") then KSources
  else if jstring_eqb t (lit "ticker") then KSymbol
  else if jstring_eqb t (lit "follow_up_questions") then KFollowUp
  else if jstring_eqb t (lit "complete") then KComplete
  else if jstring_eqb t (lit "error") then KError
  else KOther.

Definition kind_of (p : part) : kind :=
  match p with
  | Text _ => KToken
  | Data v =>
      match get v (lit "type") with
      | VStr t => kind_of_type t
      | _ => KOther
      end
  end.

Definition kinds (st : state) : list kind := map kind_of (stream st).

Definition count_kind (k : kind) (ks : list kind) : nat :=
  length (filter (kind_eqb k) ks).

Fixpoint drop_kind (k : kind) (ks : list kind) : list kind :=
  match ks with
  | k' :: r => if kind_eqb k k' then drop_kind k r else ks
  | [] => []
  end.

Definition has_type (t : string) (p : part) : bool :=
  match p with
  | Data v =>
      match get v (lit "type") with
      | VStr s => jstring_eqb s (lit t)
      | _ => false
      end
  | Text _ => false
  end.

(** The order "one or more status, one sources, at most one symbol, the
    token fragments, one follow_up_questions, one complete", as a test on a
    list of kinds. *)
Definition status_sources_symbol_tokens_followup_complete (ks : list kind) : bool :=
  match ks with
  | KStatus :: r =>
      match drop_kind KStatus r with
      | KSources :: r1 =>
          let r2 := match r1 with KSymbol :: r' => r' | _ => r1 end in
          match drop_kind KToken r2 with
          | [KFollowUp; KComplete] => true
          | _ => false
          end
      | _ => false
      end
  | _ => false
  end.

(** ** The content selector *)

Module ContentSelector.

Section Select.

(** Modelled from the spec: the window length of the "fixed-stride segments
    covering the whole document without gaps"; the route imports
    [selectRelevantContent] from [@/lib/content-selection], which is not
    among the sources, and the spec leaves the stride open. *)
Variable stride : nat.

(** Modelled from the spec: the "small stopword set" excluded from the query
    terms; [@/lib/content-selection] is not among the sources. *)
Definition stopwords : list jstring :=
  map lit [ "a"; "an"; "and"; "are"; "for"; "how"; "in"; "is"; "of"; "on";
            "or"; "the"; "to"; "what"; "with" ]%string.

Definition to_lower (c : N) : N :=
  if ((65 <=? c) && (c <=? 90))%N then (c + 32)%N else c.

Definition lower (s : jstring) : jstring := map to_lower s.

Definition starts_word (s : jstring) : bool :=
  match s with
  | c :: _ => negb (is_white_space c)
  | [] => false
  end.

(** The maximal runs of code units that are not white space. *)
Fixpoint words (s : jstring) : list jstring :=
  match s with
  | [] => []
  | c :: r =>
      if is_white_space c then words r
      else if starts_word r
           then match words r with
                | w :: ws => (c :: w) :: ws
                | [] => [[c]]
                end
           else [c] :: words r
  end.

(** Modelled from the spec: "Tokenize query into lowercase terms, excluding
    a small stopword set, deduplicated"; [@/lib/content-selection] is not
    among the sources. *)
Definition terms (query : jstring) : list jstring :=
  nodup (list_eq_dec N.eq_dec)
    (filter (fun w => negb (existsb (jstring_eqb w) stopwords))
       (words (lower query))).

Fixpoint windows_from (fuel size : nat) (text : jstring) : list jstring :=
  match fuel with
  | 0 => []
  | S fuel' =>
      match text with
      | [] => []
      | _ => firstn size text :: windows_from fuel' size (skipn size text)
      end
  end.

(** Modelled from the spec: "split text into contiguous candidate windows",
    here of [stride] code units (at least one);
    [@/lib/content-selection] is not among the sources. *)
Definition windows (text : jstring) : list jstring :=
  windows_from (length text) (Nat.max 1 stride) text.

Fixpoint is_prefix (t s : jstring) : bool :=
  match t, s with
  | [], _ => true
  | _ :: _, [] => false
  | a :: t', b :: s' => (a =? b)%N && is_prefix t' s'
  end.

Fixpoint occurrences (t s : jstring) : nat :=
  match s with
  | [] => 0
  | _ :: r => (if is_prefix t s then 1 else 0) + occurrences t r
  end.

(** Modelled from the spec: "Score each window by count of query-term
    occurrences (substring ..., case-insensitive)";
    [@/lib/content-selection] is not among the sources. *)
Definition score (ts : list jstring) (window : jstring) : nat :=
  list_sum (map (fun t => occurrences t (lower window)) ts).

(** A candidate: the position of the window in the document, its score and
    its text. *)
Record candidate : Type := mkCandidate {
  position : nat;
  points : nat;
  window : jstring
}.

Definition candidates (ts : list jstring) (text : jstring) : list candidate :=
  filter (fun c => 0 <? points c)
    (mapi (fun w i => mkCandidate i (score ts w) w) (windows text)).

(** The highest score; among equal scores the lowest start offset. *)
Fixpoint best (cands : list candidate) : option candidate :=
  match cands with
  | [] => None
  | c :: r =>
      match best r with
      | None => Some c
      | Some d => if points d <=? points c then Some c else Some d
      end
  end.

(** Modelled from the spec: "Repeatedly accept the highest-scoring
    unselected window ... until the concatenation reaches maxLength or all
    positively-scored windows are exhausted";
    [@/lib/content-selection] is not among the sources. *)
Fixpoint accept (fuel : nat) (cands : list candidate) (chosen : list nat)
    (len maxLength : nat) : list nat :=
  match fuel with
  | 0 => chosen
  | S fuel' =>
      if maxLength <=? len then chosen
      else match best cands with
           | None => chosen
           | Some c =>
               accept fuel'
                 (filter (fun d => negb (position d =? position c)) cands)
                 (position c :: chosen) (len + length (window c)) maxLength
           end
  end.

Fixpoint drop_to_white_space (reversed : jstring) : jstring :=
  match reversed with
  | [] => []
  | c :: r => if is_white_space c then reversed else drop_to_white_space r
  end.

(** Modelled from the spec: "cut on whitespace boundaries near the budget
    edge when truncating"; when the leading [maxLength] code units hold no
    white space the cut is at the budget itself;
    [@/lib/content-selection] is not among the sources. *)
Definition cut (maxLength : nat) (s : jstring) : jstring :=
  if length s <=? maxLength then s
  else
    let leading := firstn maxLength s in
    match rev (drop_to_white_space (rev leading)) with
    | [] => leading
    | kept => kept
    end.

(** Modelled from the spec: the contract [select(text, query, maxLength)]
    of section 4.1, with the fast path, the selected windows put back in
    document order, and the fall-back to the leading [maxLength] code units
    when no window scores; [@/lib/content-selection] is not among the
    sources. *)
Definition select (text query : jstring) (maxLength : nat) : jstring :=
  if length text <=? maxLength then text
  else
    let cands := candidates (terms query) text in
    match cands with
    | [] => firstn maxLength text
    | _ =>
        let chosen := accept (length cands) cands [] 0 maxLength in
        cut maxLength
          (concat
             (map window
                (filter (fun c => existsb (Nat.eqb (position c)) chosen) cands)))
    end.

End Select.

End ContentSelector.

(** ** Notions the statements use *)


(** The parts a turn has written when [Promise.all] is awaited, given
    what the search returned. *)
Definition opening {imports : Imports} (P : providers) (searchData : search_data)
    (query : value) : list part :=
  [ Data (status_event "Starting search...");
    Data (status_event "Searching for relevant sources...");
    Data (sources_event (transform_sources searchData));
    Data (status_event "Analyzing sources and generating answer...") ]
  ++ (if truthy (detectCompanyTicker query)
      then [ Data (ticker_event (detectCompanyTicker query)) ] else [])
  ++ map Text (answer_fragments P).

(** The provider calls of a turn that reached the generation tasks. *)
Definition generation_calls {imports : Imports} (searchData : search_data)
    (query : value) : list call :=
  [ SearchCall query 6; GenerateTextCall;
    StreamTextCall
      (answer_prompt query (build_context (transform_sources searchData) query)) ].

(** The description a failure carries itself: its [message] property. *)
Definition own_description (error : thrown) : value :=
  match error with
  | ErrorInstance fields => obj_get fields (lit "message")
  | Other v => get v (lit "message")
  end.

(** The processing of the follow-up text in the words of the
    specification: split on line breaks, trim each line, discard the empty
    lines, keep the first five. *)
Module FollowUpSpec.

Fixpoint lines_from (current : jstring) (text : jstring) : list jstring :=
  match text with
  | [] => [rev current]
  | c :: r =>
      if (c =? nl)%N then rev current :: lines_from [] r
      else lines_from (c :: current) r
  end.

Definition lines (text : jstring) : list jstring := lines_from [] text.

Fixpoint strip_left (s : jstring) : jstring :=
  match s with
  | c :: r => if is_white_space c then strip_left r else s
  | [] => []
  end.

Definition trimmed (line : jstring) : jstring :=
  rev (strip_left (rev (strip_left line))).

Definition is_empty (line : jstring) : bool :=
  match line with
  | [] => true
  | _ :: _ => false
  end.

Definition questions (text : jstring) : list jstring :=
  firstn 5 (filter (fun l => negb (is_empty l)) (map trimmed (lines text))).

End FollowUpSpec.

(** ** Sample inputs *)

Module Sample.

(** A detector that knows one alias, and the selector of the previous
    section with windows of 200 code units. *)
Definition detect (query : value) : value :=
  match query with
  | VStr q => if jstring_eqb q (lit "How is Apple doing lately")
              then VStr (lit "AAPL") else VNull
  | _ => VNull
  end.

Definition select (content query : value) (maxLength : Z) : jstring :=
  ContentSelector.select 200 (to_string content) (to_string query)
    (Z.to_nat maxLength).

Definition imports : Imports := mkImports detect select.

Definition item (url title markdown : string) : list (jstring * value) :=
  [ (lit "url", VStr (lit url)); (lit "title", VStr (lit title));
    (lit "markdown", VStr (lit markdown)) ].

Definition results : search_data :=
  mkSearchData
    (Some [ item "https://a.example" "Apple results" "Apple reported earnings.";
            [ (lit "url", VStr (lit "https://b.example")) ];
            [ (lit "title", VStr (lit "No address")) ] ]).

Definition apple : value := VStr (lit "How is Apple doing lately").

Definition paris : value := VStr (lit "What is the capital of France?").

Definition rate_limited : thrown :=
  ErrorInstance
    [ (lit "message", VStr (lit "Request failed")); (lit "statusCode", VNum 429) ].

(** A turn on which both generation tasks succeed. *)
Definition good : providers :=
  mkProviders (inr results) [lit "Apple "; lit "is fine [1]."]
    (inr (lit "Apple is fine [1]."))
    (inr (lit " How are margins? " ++ [nl; nl] ++ lit "What about revenue?"))
    false.


(** A thrown object that is not an [Error]. *)
Definition plain_object : thrown :=
  Other (VObj [ (lit "message", VStr (lit "bad gateway")); (lit "status", VNum 502) ]).

Definition env : process_env :=
  mkEnv (VStr (lit "fc-key")) (VStr (lit "sk-key")).


Definition empty_content : request :=
  mkRequest
    (inr (Body [ VObj [ (lit "role", VStr (lit "user")); (lit "content", VStr []) ] ]
            VUndefined VUndefined)).

Definition no_query : request :=
  mkRequest (inr (Body [] VUndefined VUndefined)).

End Sample.

(** ** The prompts of the two generation tasks *)

(** A template literal that runs over several lines: the lines with a
    line break between them. *)
Definition text_lines (lines : list string) : jstring :=
  join [nl] (map lit lines).

(** The system prompt of a first turn. *)
Definition initial_system_prompt : jstring :=
  text_lines
    [ "You are a friendly assistant that helps users find information.";
      "                ";
      "                RESPONSE STYLE:";
      "                - For greetings (hi, hello), respond warmly and ask how you can help";
      "                - For simple questions, give direct, concise answers";
      "                - For complex topics, provide detailed explanations only when needed";
      "                - Match the user's energy level - be brief if they're brief";
      "                ";
      "                FORMAT:";
      "                - Use markdown for readability when appropriate";
      "                - Keep responses natural and conversational";
      "                - Include citations inline as [1], [2], etc. when referencing specific sources";
      "                - Citations should correspond to the source order (first source = [1], second = [2], etc.)";
      "                - Use the format [1] not CITATION_1 or any other format" ]%string.

(** The system prompt of a later turn. *)
Definition follow_up_system_prompt : jstring :=
  text_lines
    [ "You are a friendly assistant continuing our conversation.";
      "                ";
      "                REMEMBER:";
      "                - Keep the same conversational tone from before";
      "                - Build on previous context naturally";
      "                - Match the user's communication style";
      "                - Use markdown when it helps clarity";
      "                - Include citations inline as [1], [2], etc. when referencing specific sources";
      "                - Citations should correspond to the source order (first source = [1], second = [2], etc.)";
      "                - Use the format [1] not CITATION_1 or any other format" ]%string.

(** A chat message as the route builds it. *)
Definition message (role : string) (content : jstring) : value :=
  VObj [ (lit "role", VStr (lit role)); (lit "content", VStr content) ].

(** The [TypeError] of reading a property of [null] or [undefined]; the
    text is the engine's. *)
Definition TypeError_reading (v : value) (property : string) : thrown :=
  ErrorInstance
    [ (lit "message",
        VStr (lit "Cannot read properties of " ++ to_string v
                ++ lit " (reading '" ++ lit property ++ lit "')")) ].

(** [v.property], which throws on [null] and [undefined]. *)
Definition read (v : value) (property : string) : thrown + value :=
  match v with
  | VUndefined | VNull => inl (TypeError_reading v property)
  | _ => inr (get v (lit property))
  end.

(** [Array.prototype.map] with a callback that may throw: the first throw
    ends the map. *)
Fixpoint map_throwing {A B} (f : A -> thrown + B) (l : list A) : thrown + list B :=
  match l with
  | [] => inr []
  | x :: r =>
      match f x with
      | inl e => inl e
      | inr y =>
          match map_throwing f r with
          | inl e => inl e
          | inr ys => inr (y :: ys)
          end
      end
  end.

(** [messages.length > 2]. *)
Definition isFollowUp (messages : list value) : bool := 2 <? length messages.

(** The callback [(m) => ({ role: m.role, content: m.content })]. *)
Definition role_and_content (m : value) : thrown + value :=
  match read m "role" with
  | inl e => inl e
  | inr role =>
      match read m "content" with
      | inl e => inl e
      | inr content => inr (VObj [ (lit "role", role); (lit "content", content) ])
      end
  end.

(** The array [aiMessages] given to [streamText]. *)
Definition aiMessages (messages : list value) (query : value) (context : jstring)
  : thrown + list value :=
  if negb (isFollowUp messages)
  then inr [ message "system" initial_system_prompt;
             message "user" (answer_prompt query context) ]
  else
    match map_throwing role_and_content (slice 0 (-1) messages) with
    | inl e => inl e
    | inr history =>
        inr ([ message "system" follow_up_system_prompt ]
             ++ history
             ++ [ message "user" (answer_prompt query context) ])
    end.

(** The callback that prints one message of the conversation preview. *)
Definition preview_line (m : value) : thrown + jstring :=
  match read m "role" with
  | inl e => inl e
  | inr role =>
      match read m "content" with
      | inl e => inl e
      | inr content => inr (to_string role ++ lit ": " ++ to_string content)
      end
  end.

Definition conversationPreview (messages : list value) (query : value)
  : thrown + jstring :=
  if isFollowUp messages
  then match map_throwing preview_line messages with
       | inl e => inl e
       | inr lines => inr (join [nl; nl] lines)
       end
  else inr (lit "user: " ++ to_string query).

(** A computation that throws what a pure step throws. *)
Definition lift {A} (r : thrown + A) : M A :=
  match r with
  | inl e => throw e
  | inr a => ret a
  end.

Section RouteWithHistory.

Context {imports : Imports}.

(** The [try] block of [execute] with the steps that read the conversation:
    the two prompts are built, and may throw, between the ticker part and
    the calls of the generation tasks. *)
Definition execute_try_with (messages : list value) (P : providers) (query : value)
  : M unit :=
  writeData (status_event "Starting search...") ;;
  writeData (status_event "Searching for relevant sources...") ;;
  searchData <- firecrawl_search P query ;;
  let sources := transform_sources searchData in
  writeData (sources_event sources) ;;
  writeData (status_event "Analyzing sources and generating answer...") ;;
  let ticker := detectCompanyTicker query in
  (if truthy ticker then writeData (ticker_event ticker) else ret tt) ;;
  let context := build_context sources query in
  _ <- lift (aiMessages messages query context) ;;
  _ <- lift (conversationPreview messages query) ;;
  log_call GenerateTextCall ;;
  log_call (StreamTextCall (answer_prompt query context)) ;;
  for_each writeText (answer_fragments P) ;;
  joined <- promise_all P ;;
  writeData (follow_up_event (followUpQuestions (snd joined))) ;;
  writeData complete_event.

Definition execute_with (messages : list value) (P : providers) (query : value)
  : M unit :=
  try_catch (execute_try_with messages P query) execute_catch.

End RouteWithHistory.


(** A value is [null] or [undefined]. *)
Definition nullish (v : value) : bool :=
  match v with
  | VUndefined | VNull => true
  | _ => false
  end.

(** ** The page

    The first half of [src/app/page.tsx]: the component
    [FireplexityPage].  Its state is the values of the [useState] cells and
    of the two refs; a handler maps the state of the render it closes over
    to the state after its updates.  What a handler asks of the chat hook,
    the browser and the toaster is the list of actions it returns. *)

Module Page.

(** The interface [MessageData]; an absent [ticker] reads [undefined]. *)
Module MessageData.
Record t : Type := mk {
  sources : value;
  followUpQuestions : value;
  ticker : value
}.
End MessageData.

(** [Map<number, MessageData>], in insertion order. *)
Definition Map : Type := list (nat * MessageData.t).

Fixpoint Map_get (m : Map) (k : nat) : option MessageData.t :=
  match m with
  | [] => None
  | (k', v) :: r => if k' =? k then Some v else Map_get r k
  end.

Fixpoint Map_set (m : Map) (k : nat) (v : MessageData.t) : Map :=
  match m with
  | [] => [(k, v)]
  | (k', v') :: r => if k' =? k then (k, v) :: r else (k', v') :: Map_set r k v
  end.

Record state : Type := mkState {
  sources : value;
  followUpQuestions : value;
  searchStatus : value;
  hasSearched : bool;
  lastDataLength : nat;                    (* a ref *)
  messageData : Map;
  currentMessageIndex : nat;               (* a ref *)
  currentTicker : value;
  firecrawlApiKey : jstring;
  hasApiKey : bool;
  showApiKeyModal : bool;
  isCheckingEnv : bool;
  pendingQuery : jstring
}.

(** The state of the first render. *)
Definition mount : state :=
  mkState (VArr []) (VArr []) (VStr []) false 0 [] 0 VNull [] false false true [].

Definition setSources (v : value) (s : state) : state :=
  mkState v (followUpQuestions s) (searchStatus s) (hasSearched s)
    (lastDataLength s) (messageData s) (currentMessageIndex s) (currentTicker s)
    (firecrawlApiKey s) (hasApiKey s) (showApiKeyModal s) (isCheckingEnv s)
    (pendingQuery s).

Definition setFollowUpQuestions (v : value) (s : state) : state :=
  mkState (sources s) v (searchStatus s) (hasSearched s)
    (lastDataLength s) (messageData s) (currentMessageIndex s) (currentTicker s)
    (firecrawlApiKey s) (hasApiKey s) (showApiKeyModal s) (isCheckingEnv s)
    (pendingQuery s).

Definition setSearchStatus (v : value) (s : state) : state :=
  mkState (sources s) (followUpQuestions s) v (hasSearched s)
    (lastDataLength s) (messageData s) (currentMessageIndex s) (currentTicker s)
    (firecrawlApiKey s) (hasApiKey s) (showApiKeyModal s) (isCheckingEnv s)
    (pendingQuery s).

Definition setHasSearched (b : bool) (s : state) : state :=
  mkState (sources s) (followUpQuestions s) (searchStatus s) b
    (lastDataLength s) (messageData s) (currentMessageIndex s) (currentTicker s)
    (firecrawlApiKey s) (hasApiKey s) (showApiKeyModal s) (isCheckingEnv s)
    (pendingQuery s).

Definition set_lastDataLength (n : nat) (s : state) : state :=
  mkState (sources s) (followUpQuestions s) (searchStatus s) (hasSearched s)
    n (messageData s) (currentMessageIndex s) (currentTicker s)
    (firecrawlApiKey s) (hasApiKey s) (showApiKeyModal s) (isCheckingEnv s)
    (pendingQuery s).

Definition setMessageData (m : Map) (s : state) : state :=
  mkState (sources s) (followUpQuestions s) (searchStatus s) (hasSearched s)
    (lastDataLength s) m (currentMessageIndex s) (currentTicker s)
    (firecrawlApiKey s) (hasApiKey s) (showApiKeyModal s) (isCheckingEnv s)
    (pendingQuery s).

Definition set_currentMessageIndex (n : nat) (s : state) : state :=
  mkState (sources s) (followUpQuestions s) (searchStatus s) (hasSearched s)
    (lastDataLength s) (messageData s) n (currentTicker s)
    (firecrawlApiKey s) (hasApiKey s) (showApiKeyModal s) (isCheckingEnv s)
    (pendingQuery s).

Definition setCurrentTicker (v : value) (s : state) : state :=
  mkState (sources s) (followUpQuestions s) (searchStatus s) (hasSearched s)
    (lastDataLength s) (messageData s) (currentMessageIndex s) v
    (firecrawlApiKey s) (hasApiKey s) (showApiKeyModal s) (isCheckingEnv s)
    (pendingQuery s).

Definition setFirecrawlApiKey (k : jstring) (s : state) : state :=
  mkState (sources s) (followUpQuestions s) (searchStatus s) (hasSearched s)
    (lastDataLength s) (messageData s) (currentMessageIndex s) (currentTicker s)
    k (hasApiKey s) (showApiKeyModal s) (isCheckingEnv s) (pendingQuery s).

Definition setHasApiKey (b : bool) (s : state) : state :=
  mkState (sources s) (followUpQuestions s) (searchStatus s) (hasSearched s)
    (lastDataLength s) (messageData s) (currentMessageIndex s) (currentTicker s)
    (firecrawlApiKey s) b (showApiKeyModal s) (isCheckingEnv s) (pendingQuery s).

Definition setShowApiKeyModal (b : bool) (s : state) : state :=
  mkState (sources s) (followUpQuestions s) (searchStatus s) (hasSearched s)
    (lastDataLength s) (messageData s) (currentMessageIndex s) (currentTicker s)
    (firecrawlApiKey s) (hasApiKey s) b (isCheckingEnv s) (pendingQuery s).

Definition setIsCheckingEnv (b : bool) (s : state) : state :=
  mkState (sources s) (followUpQuestions s) (searchStatus s) (hasSearched s)
    (lastDataLength s) (messageData s) (currentMessageIndex s) (currentTicker s)
    (firecrawlApiKey s) (hasApiKey s) (showApiKeyModal s) b (pendingQuery s).

Definition setPendingQuery (q : jstring) (s : state) : state :=
  mkState (sources s) (followUpQuestions s) (searchStatus s) (hasSearched s)
    (lastDataLength s) (messageData s) (currentMessageIndex s) (currentTicker s)
    (firecrawlApiKey s) (hasApiKey s) (showApiKeyModal s) (isCheckingEnv s) q.

(** *** The effect on the stream data *)

(** The guard [!item || typeof item !== 'object' || !('type' in item)],
    negated: only an object with a [type] property passes; an array has
    none. *)
Definition has_type_property (item : value) : bool :=
  match item with
  | VObj fields => obj_has fields (lit "type")
  | _ => false
  end.

(** [typedItem.type === name]. *)
Definition type_is (item : value) (name : string) : bool :=
  match get item (lit "type") with
  | VStr t => jstring_eqb t (lit name)
  | _ => false
  end.

(** [newMap.get(index) || { sources: [], followUpQuestions: [] }]. *)
Definition existingData (m : Map) (index : nat) : MessageData.t :=
  match Map_get m index with
  | Some d => d
  | None => MessageData.mk (VArr []) (VArr []) VUndefined
  end.

(** The callback of [newItems.forEach].  [messageData] is the map of the
    render the effect closes over: every branch copies that map, whatever
    the earlier items of the same run have set. *)
Definition process_item (messageData : Map) (s : state) (item : value) : state :=
  if negb (has_type_property item) then s
  else
    let index := currentMessageIndex s in
    let existing := existingData messageData index in
    let s :=
      if type_is item "status"
      then setSearchStatus (or_ (get item (lit "message")) (VStr [])) s
      else s in
    let s :=
      if type_is item "ticker" && truthy (get item (lit "symbol"))
      then setMessageData
             (Map_set messageData index
                (MessageData.mk (MessageData.sources existing)
                   (MessageData.followUpQuestions existing)
                   (get item (lit "symbol"))))
             (setCurrentTicker (get item (lit "symbol")) s)
      else s in
    let s :=
      if type_is item "sources" && truthy (get item (lit "sources"))
      then setMessageData
             (Map_set messageData index
                (MessageData.mk (get item (lit "sources"))
                   (MessageData.followUpQuestions existing)
                   (MessageData.ticker existing)))
             (setSources (get item (lit "sources")) s)
      else s in
    if type_is item "follow_up_questions" && truthy (get item (lit "questions"))
    then setMessageData
           (Map_set messageData index
              (MessageData.mk (MessageData.sources existing)
                 (get item (lit "questions"))
                 (MessageData.ticker existing)))
           (setFollowUpQuestions (get item (lit "questions")) s)
    else s.

(** The effect that handles the custom data of the stream; [data] is
    [undefined] or an array. *)
Definition effect (data : option (list value)) (s : state) : state :=
  match data with
  | None => s
  | Some data =>
      let newItems :=
        slice (Z.of_nat (lastDataLength s)) (Z.of_nat (length data)) data in
      set_lastDataLength (length data)
        (fold_left (process_item (messageData s)) newItems s)
  end.

(** *** The callbacks given to the chat hook *)

(** [messages.filter(m => m.role === 'assistant')]. *)
Definition assistantMessages (messages : list value) : list value :=
  filter (fun m => match get m (lit "role") with
                   | VStr r => jstring_eqb r (lit "assistant")
                   | _ => false
                   end) messages.

Definition onResponse (messages : list value) (s : state) : state :=
  set_currentMessageIndex (length (assistantMessages messages))
    (setCurrentTicker VNull
       (setFollowUpQuestions (VArr [])
          (setSources (VArr []) (setSearchStatus (VStr []) s)))).

(** The option [body] of the chat hook:
    [{ ...(firecrawlApiKey && { firecrawlApiKey }) }]. *)
Definition chat_body (s : state) : value :=
  VObj (if 0 <? length (firecrawlApiKey s)
        then [ (lit "firecrawlApiKey", VStr (firecrawlApiKey s)) ]
        else []).

(** *** The submit handlers *)

Inductive action : Type :=
| PreventDefault
| HandleSubmit
| HandleInputChange (v : jstring)
| ToastSuccess (text : jstring)
| SetTimeout (ms : Z).

(** [localStorage]. *)
Definition Storage : Type := list (jstring * jstring).

Fixpoint getItem (st : Storage) (k : jstring) : value :=
  match st with
  | [] => VNull
  | (k', v) :: r => if jstring_eqb k' k then VStr v else getItem r k
  end.

Fixpoint setItem (st : Storage) (k v : jstring) : Storage :=
  match st with
  | [] => [(k, v)]
  | (k', v') :: r =>
      if jstring_eqb k' k then (k, v) :: r else (k', v') :: setItem r k v
  end.

Definition key_name : jstring := lit "firecrawl-api-key".

(** The clearing of the current data that both submit handlers do. *)
Definition clear_current (s : state) : state :=
  setCurrentTicker VNull (setFollowUpQuestions (VArr []) (setSources (VArr []) s)).

Definition handleSearch (input : jstring) (s : state) : state * list action :=
  if length (trim input) =? 0 then (s, [PreventDefault])
  else if negb (hasApiKey s)
  then (setShowApiKeyModal true (setPendingQuery input s), [PreventDefault])
  else (clear_current (setHasSearched true s), [PreventDefault; HandleSubmit]).

(** [sources.length > 0] on the values the cell holds at its declared type
    [SearchResult[]]; a number or a boolean has no length. *)
Definition length_positive (v : value) : bool :=
  match v with
  | VArr l => 0 <? length l
  | VStr s => 0 <? length s
  | _ => false
  end.

Definition handleChatSubmit (messages : list value) (input : jstring) (s : state)
  : state * list action :=
  if negb (hasApiKey s)
  then (setShowApiKeyModal true (setPendingQuery input s), [PreventDefault])
  else
    let s1 :=
      if (0 <? length messages) && length_positive (sources s)
      then
        let count := length (assistantMessages messages) in
        if 1 <=? count
        then setMessageData
               (Map_set (messageData s) (count - 1)
                  (MessageData.mk (sources s) (followUpQuestions s)
                     (or_ (currentTicker s) VUndefined)))
               s
        else s
      else s in
    (clear_current s1, [HandleSubmit]).

(** [SetTimeout 100] stands for the timer that [handleApiKeySubmit] sets;
    its callback submits the pending query later. *)
Definition handleApiKeySubmit (s : state) (st : Storage)
  : state * Storage * list action :=
  if 0 <? length (trim (firecrawlApiKey s))
  then
    (setShowApiKeyModal false (setHasApiKey true s),
     setItem st key_name (firecrawlApiKey s),
     [ ToastSuccess (lit "API key saved successfully!") ]
     ++ (if 0 <? length (pendingQuery s)
         then [ HandleInputChange (pendingQuery s); SetTimeout 100 ]
         else []))
  else (s, st, []).

(** The effect run on mount; [response] is the body of the answer of
    [/api/fireplexity/check-env], or nothing when the request or its
    decoding rejects. *)
Definition checkApiKey (response : option value) (st : Storage) (s : state) : state :=
  setIsCheckingEnv false
    match response with
    | None => s
    | Some data =>
        match data with
        | VUndefined | VNull => s
        | _ =>
            if truthy (get data (lit "hasFirecrawlKey")) then setHasApiKey true s
            else
              match getItem st key_name with
              | VStr storedKey =>
                  if 0 <? length storedKey
                  then setHasApiKey true (setFirecrawlApiKey storedKey s)
                  else s
              | _ => s
              end
        end
    end.

(** What the display shows of a turn. *)
Definition display (s : state) : value * value * value * value :=
  (sources s, followUpQuestions s, searchStatus s, currentTicker s).

End Page.

(** * Properties *)

(** ** Strings and arrays *)

Lemma jstring_eqb_eq (a b : jstring) : jstring_eqb a b = true <-> a = b.
Proof.
  revert b. induction a as [|x a IH]; destruct b as [|y b]; simpl;
    try (split; congruence).
  rewrite andb_true_iff, N.eqb_eq, IH. split.
  - intros [-> ->]. reflexivity.
  - intros E. injection E. auto.
Qed.

Lemma jstring_eqb_refl (a : jstring) : jstring_eqb a a = true.
Proof. now apply jstring_eqb_eq. Qed.

Lemma jstring_eqb_neq (a b : jstring) : a <> b -> jstring_eqb a b = false.
Proof.
  intros N. destruct (jstring_eqb a b) eqn:E; [|reflexivity].
  apply jstring_eqb_eq in E. contradiction.
Qed.

Lemma firstn_min_length {A} (n : nat) (l : list A) :
  firstn (Nat.min n (length l)) l = firstn n l.
Proof.
  destruct (Nat.le_ge_cases n (length l)) as [L|L].
  - now rewrite Nat.min_l.
  - rewrite Nat.min_r by exact L. now rewrite !firstn_all2.
Qed.

(** [slice(0, n)] keeps the first [n] elements. *)
Lemma slice_from_start {A} (n : nat) (l : list A) :
  slice 0 (Z.of_nat n) l = firstn n l.
Proof.
  unfold slice, relative_index.
  replace (0 <? 0)%Z with false by reflexivity.
  destruct (Z.of_nat n <? 0)%Z eqn:E; [apply Z.ltb_lt in E; lia|].
  rewrite (Z.min_l 0) by lia. simpl skipn. rewrite Z.sub_0_r.
  rewrite <- Nat2Z.inj_min, Nat2Z.id. apply firstn_min_length.
Qed.

Lemma split_not_nil (sep : N) (s : jstring) : split sep s <> [].
Proof.
  induction s as [|c r IH]; simpl; [discriminate|].
  destruct (c =? sep)%N; [discriminate|].
  destruct (split sep r); [contradiction|discriminate].
Qed.

(** The accumulating reading of lines and [split] agree. *)
Lemma lines_from_split (text current : jstring) :
  FollowUpSpec.lines_from current text
  = (rev current ++ hd [] (split nl text)) :: tl (split nl text).
Proof.
  revert current. induction text as [|c r IH]; intros current; simpl.
  - now rewrite app_nil_r.
  - destruct (c =? nl)%N.
    + rewrite IH. simpl. rewrite app_nil_r.
      f_equal. destruct (split nl r) eqn:E; [now apply split_not_nil in E|].
      reflexivity.
    + rewrite IH. simpl. destruct (split nl r) eqn:E;
        [now apply split_not_nil in E|].
      simpl. now rewrite <- app_assoc.
Qed.

Lemma lines_split (text : jstring) : FollowUpSpec.lines text = split nl text.
Proof.
  unfold FollowUpSpec.lines. rewrite lines_from_split. simpl.
  destruct (split nl text) eqn:E; [now apply split_not_nil in E|reflexivity].
Qed.

Lemma strip_left_trimStart (s : jstring) : FollowUpSpec.strip_left s = trimStart s.
Proof. induction s as [|c r IH]; simpl; [|rewrite IH]; reflexivity. Qed.

Lemma strip_left_snoc (l : jstring) (c : N) :
  FollowUpSpec.strip_left (l ++ [c])
  = match FollowUpSpec.strip_left l with
    | [] => if is_white_space c then [] else [c]
    | kept => kept ++ [c]
    end.
Proof.
  induction l as [|x l IH]; simpl.
  - reflexivity.
  - destruct (is_white_space x); [exact IH|reflexivity].
Qed.

Lemma trimEnd_rev (s : jstring) :
  trimEnd s = rev (FollowUpSpec.strip_left (rev s)).
Proof.
  induction s as [|c r IH]; simpl; [reflexivity|].
  rewrite strip_left_snoc, IH.
  destruct (FollowUpSpec.strip_left (rev r)) as [|x kept] eqn:E; simpl.
  - destruct (is_white_space c); reflexivity.
  - rewrite rev_app_distr. simpl.
    destruct (rev kept ++ [x]) eqn:E'; [now destruct (rev kept)|reflexivity].
Qed.

Lemma trim_trimmed (s : jstring) : trim s = FollowUpSpec.trimmed s.
Proof.
  unfold trim, FollowUpSpec.trimmed.
  now rewrite trimEnd_rev, strip_left_trimStart.
Qed.

(** Joining the pieces of [split] with the separator gives the string
    back. *)
Lemma join_cons (sep x y : jstring) (r : list jstring) :
  join sep (x :: y :: r) = x ++ sep ++ join sep (y :: r).
Proof. reflexivity. Qed.

Lemma join_split (sep : N) (s : jstring) : join [sep] (split sep s) = s.
Proof.
  induction s as [|c r IH]; [reflexivity|].
  cbn [split]. destruct (c =? sep)%N eqn:E.
  - apply N.eqb_eq in E. subst c.
    destruct (split sep r) as [|h t] eqn:S; [now apply split_not_nil in S|].
    rewrite join_cons, IH. reflexivity.
  - destruct (split sep r) as [|h t] eqn:S; [now apply split_not_nil in S|].
    destruct t as [|y t].
    + cbn [join] in *. now rewrite IH.
    + rewrite join_cons in *. rewrite <- IH. reflexivity.
Qed.

(** ** Runs of [execute] *)

Section Runs.

Context {imports : Imports}.

Lemma for_each_writeText (fragments : list jstring) (st : state) :
  for_each writeText fragments st
  = (Returned tt, mkState (stream st ++ map Text fragments) (calls st)).
Proof.
  revert st. induction fragments as [|f r IH]; intros [s c]; simpl.
  - unfold ret. now rewrite app_nil_r.
  - unfold bind. simpl. rewrite IH. simpl. now rewrite <- app_assoc.
Qed.

(** A search that rejects ends the [try] block after two status parts. *)
Lemma execute_try_search_rejects (P : providers) (query : value) (e : thrown) :
  search P = inl e ->
  execute_try P query initial
  = (Thrown e,
     mkState [ Data (status_event "Starting search...");
               Data (status_event "Searching for relevant sources...") ]
             [ SearchCall query 6 ]).
Proof.
  intros S. unfold execute_try, firecrawl_search, bind, writeData, log_call, initial.
  simpl. rewrite S. reflexivity.
Qed.

(** A search that resolves leads to the join of the two generation tasks. *)
Lemma execute_try_search_resolves (P : providers) (query : value) (d : search_data) :
  search P = inr d ->
  execute_try P query initial
  = match settled P with
    | inl e => (Thrown e, mkState (opening P d query) (generation_calls d query))
    | inr results =>
        (Returned tt,
         mkState (opening P d query
                  ++ [ Data (follow_up_event (followUpQuestions (snd results)));
                       Data complete_event ])
                 (generation_calls d query))
    end.
Proof.
  intros S.
  unfold execute_try, firecrawl_search, promise_all, opening, generation_calls.
  unfold bind at 1 2 3. unfold writeData at 1 2, log_call at 1, initial. simpl.
  rewrite S. unfold bind, ret, throw, writeData, log_call. simpl.
  destruct (truthy (detectCompanyTicker query)); simpl;
    rewrite for_each_writeText; simpl;
    destruct (settled P) as [e|results]; simpl;
    rewrite <- ?app_assoc; reflexivity.
Qed.

(** The whole stream of a turn, case by case. *)
Lemma execute_stream (P : providers) (query : value) :
  stream (snd (execute P query initial))
  = match search P with
    | inl e =>
        [ Data (status_event "Starting search...");
          Data (status_event "Searching for relevant sources...");
          Data (errorData e) ]
    | inr d =>
        opening P d query
        ++ match settled P with
           | inl e => [ Data (errorData e) ]
           | inr results =>
               [ Data (follow_up_event (followUpQuestions (snd results)));
                 Data complete_event ]
           end
    end.
Proof.
  unfold execute, try_catch.
  destruct (search P) as [e|d] eqn:S.
  - rewrite (execute_try_search_rejects _ _ S). reflexivity.
  - rewrite (execute_try_search_resolves _ _ S).
    destruct (settled P); reflexivity.
Qed.


Lemma execute_returned (P : providers) (query : value) :
  fst (execute_try P query initial) = Returned tt ->
  execute P query initial = execute_try P query initial.
Proof.
  unfold execute, try_catch.
  destruct (execute_try P query initial) as [[a|e'] st]; simpl;
    [reflexivity|discriminate].
Qed.

End Runs.

(** ** Kinds of the parts of a turn *)

Lemma count_kind_app (k : kind) (a b : list kind) :
  count_kind k (a ++ b) = count_kind k a + count_kind k b.
Proof. unfold count_kind. now rewrite filter_app, length_app. Qed.

Lemma count_kind_tokens (k : kind) (n : nat) :
  kind_eqb k KToken = false -> count_kind k (repeat KToken n) = 0.
Proof.
  intros E. unfold count_kind. induction n as [|n IH]; simpl; [reflexivity|].
  now rewrite E.
Qed.

Lemma kinds_of_text (fragments : list jstring) :
  map kind_of (map Text fragments) = repeat KToken (length fragments).
Proof. induction fragments as [|f r IH]; simpl; [|rewrite IH]; reflexivity. Qed.

Lemma kind_of_errorData (e : thrown) :
  kind_of (Data (errorData e)) = KError.
Proof. reflexivity. Qed.

Lemma kind_of_ticker_event (ticker : value) :
  kind_of (Data (ticker_event ticker)) = KSymbol.
Proof. reflexivity. Qed.

Section Kinds.

Context {imports : Imports}.

Lemma kinds_opening (P : providers) (d : search_data) (query : value) :
  map kind_of (opening P d query)
  = [KStatus; KStatus; KSources; KStatus]
    ++ (if truthy (detectCompanyTicker query) then [KSymbol] else [])
    ++ repeat KToken (length (answer_fragments P)).
Proof.
  unfold opening. rewrite !map_app, kinds_of_text.
  destruct (truthy (detectCompanyTicker query)); reflexivity.
Qed.

Lemma execute_kinds (P : providers) (query : value) :
  kinds (snd (execute P query initial))
  = match search P with
    | inl _ => [KStatus; KStatus; KError]
    | inr _ =>
        [KStatus; KStatus; KSources; KStatus]
        ++ (if truthy (detectCompanyTicker query) then [KSymbol] else [])
        ++ repeat KToken (length (answer_fragments P))
        ++ match settled P with
           | inl _ => [KError]
           | inr _ => [KFollowUp; KComplete]
           end
    end.
Proof.
  unfold kinds. rewrite execute_stream.
  destruct (search P) as [e|d]; [reflexivity|].
  rewrite map_app, kinds_opening, <- !app_assoc.
  destruct (settled P); reflexivity.
Qed.

(** Whether the [try] block returns is decided by the providers. *)
Lemma execute_try_returns (P : providers) (query : value) :
  fst (execute_try P query initial) = Returned tt ->
  exists d fullAnswer text,
    search P = inr d /\ answer_text P = inr fullAnswer
    /\ follow_up P = inr text /\ settled P = inr (fullAnswer, text).
Proof.
  destruct (search P) as [e|d] eqn:S.
  - rewrite (execute_try_search_rejects _ _ S). discriminate.
  - rewrite (execute_try_search_resolves _ _ S).
    unfold settled.
    destruct (answer_text P) as [e1|a], (follow_up P) as [e2|t]; simpl;
      try discriminate.
    intros _. exists d, a, t. auto.
Qed.


End Kinds.

(** ** The order of a successful turn, and the failure path *)

Section Turn.

Context {imports : Imports}.

(** C1, as amended: on every turn whose [try] block returns, the stream is
    two status parts, the sources part, one more status part, the ticker
    part when a ticker was detected, the forwarded text fragments, the
    follow-up part and the complete part, in this order.  In particular
    there is exactly one sources part and it precedes every fragment, the
    single follow-up part comes after all of them, and complete is last. *)
Theorem successful_turn_order (P : providers) (query : value) :
  fst (execute_try P query initial) = Returned tt ->
  exists d fullAnswer text,
    search P = inr d /\ answer_text P = inr fullAnswer /\ follow_up P = inr text
    /\ stream (snd (execute P query initial))
       = [ Data (status_event "Starting search...");
           Data (status_event "Searching for relevant sources...");
           Data (sources_event (transform_sources d));
           Data (status_event "Analyzing sources and generating answer...") ]
         ++ (if truthy (detectCompanyTicker query)
             then [ Data (ticker_event (detectCompanyTicker query)) ] else [])
         ++ map Text (answer_fragments P)
         ++ [ Data (follow_up_event (followUpQuestions text));
              Data complete_event ]
    /\ kinds (snd (execute P query initial))
       = [KStatus; KStatus; KSources; KStatus]
         ++ (if truthy (detectCompanyTicker query) then [KSymbol] else [])
         ++ repeat KToken (length (answer_fragments P))
         ++ [KFollowUp; KComplete]
    /\ count_kind KSources (kinds (snd (execute P query initial))) = 1
    /\ count_kind KFollowUp (kinds (snd (execute P query initial))) = 1
    /\ count_kind KComplete (kinds (snd (execute P query initial))) = 1
    /\ last (kinds (snd (execute P query initial))) KOther = KComplete.
Proof.
  intros R.
  destruct (execute_try_returns _ _ R) as (d & a & t & S & A & F & J).
  exists d, a, t. split; [exact S|]. split; [exact A|]. split; [exact F|].
  assert (K : kinds (snd (execute P query initial))
              = [KStatus; KStatus; KSources; KStatus]
                ++ (if truthy (detectCompanyTicker query) then [KSymbol] else [])
                ++ repeat KToken (length (answer_fragments P))
                ++ [KFollowUp; KComplete]).
  { rewrite execute_kinds, S, J. reflexivity. }
  split.
  - rewrite execute_stream, S, J. unfold opening.
    rewrite <- !app_assoc. reflexivity.
  - split; [exact K|]. rewrite K.
    rewrite !count_kind_app, !count_kind_tokens by reflexivity.
    repeat split.
    + destruct (truthy (detectCompanyTicker query)); reflexivity.
    + destruct (truthy (detectCompanyTicker query)); reflexivity.
    + destruct (truthy (detectCompanyTicker query)); reflexivity.
    + change [KFollowUp; KComplete] with ([KFollowUp] ++ [KComplete]).
      rewrite !app_assoc. apply last_last.
Qed.


End Turn.

(** On the sample turn the order claimed without the third status part
    does not hold. *)
Lemma status_after_sources :
  fst (@execute_try Sample.imports Sample.good Sample.paris initial) = Returned tt
  /\ status_sources_symbol_tokens_followup_complete
       (kinds (snd (@execute Sample.imports Sample.good Sample.paris initial)))
     = false.
Proof. split; vm_compute; reflexivity. Qed.

Lemma successful_turn_order_witness :
  exists d fullAnswer text,
    search Sample.good = inr d /\ answer_text Sample.good = inr fullAnswer
    /\ follow_up Sample.good = inr text
    /\ stream (snd (@execute Sample.imports Sample.good Sample.apple initial))
       = [ Data (status_event "Starting search...");
           Data (status_event "Searching for relevant sources...");
           Data (sources_event (transform_sources d));
           Data (status_event "Analyzing sources and generating answer...") ]
         ++ [ Data (ticker_event (VStr (lit "AAPL"))) ]
         ++ map Text (answer_fragments Sample.good)
         ++ [ Data (follow_up_event (followUpQuestions text));
              Data complete_event ].
Proof.
  destruct (@successful_turn_order Sample.imports Sample.good Sample.apple)
    as (d & fullAnswer & text & S & A & F & St & _).
  - vm_compute. reflexivity.
  - exists d, fullAnswer, text.
    split; [exact S|]. split; [exact A|]. split; [exact F|]. exact St.
Defined.


(** ** What each part of the stream is *)



Section Parts.

Context {imports : Imports}.

(** The parts of a turn, one by one: every part of the stream is one of
    the objects [execute] writes or a forwarded fragment. *)
Lemma execute_parts (P : providers) (query : value) (p : part) :
  In p (stream (snd (execute P query initial))) ->
  p = Data (status_event "Starting search...")
  \/ p = Data (status_event "Searching for relevant sources...")
  \/ p = Data (status_event "Analyzing sources and generating answer...")
  \/ (exists d, search P = inr d /\ p = Data (sources_event (transform_sources d)))
  \/ (truthy (detectCompanyTicker query) = true
      /\ p = Data (ticker_event (detectCompanyTicker query)))
  \/ (exists fragment, p = Text fragment)
  \/ (exists text, follow_up P = inr text
                   /\ p = Data (follow_up_event (followUpQuestions text)))
  \/ p = Data complete_event
  \/ (exists e, p = Data (errorData e)).
Proof.
  rewrite execute_stream. destruct (search P) as [e|d] eqn:S.
  - simpl. intros [<-|[<-|[<-|[]]]]; auto 6.
    do 8 right. now exists e.
  - unfold opening. rewrite !in_app_iff. intros [[H|[H|H]]|H].
    + simpl in H. destruct H as [<-|[<-|[<-|[<-|[]]]]]; auto 6.
      do 3 right. left. now exists d.
    + destruct (truthy (detectCompanyTicker query)) eqn:T; [|destruct H].
      destruct H as [<-|[]]. do 4 right. left. auto.
    + apply in_map_iff in H. destruct H as (f & <- & _).
      do 5 right. left. now exists f.
    + unfold settled in H.
      destruct (answer_text P) as [e1|a], (follow_up P) as [e2|t];
        simpl in H; try (destruct H as [<-|[]]; do 8 right; eexists; reflexivity).
      destruct H as [<-|[<-|[]]]; [|auto 10].
      do 6 right. left. now exists t.
Qed.

(** C6, as amended: at most one detected-entity part is written on a turn,
    it is written only when [detectCompanyTicker] returns a truthy value for
    the query, and it is the object whose [type] is ["ticker"] and whose one
    other field, [symbol], holds the detected ticker; no part has the
    discriminator ["symbol"]. *)
Theorem ticker_part_once (P : providers) (query : value) :
  count_kind KSymbol (kinds (snd (execute P query initial))) <= 1
  /\ (In KSymbol (kinds (snd (execute P query initial))) ->
      truthy (detectCompanyTicker query) = true)
  /\ (forall p, In p (stream (snd (execute P query initial))) ->
        kind_of p = KSymbol ->
        p = Data (VObj [ (lit "type", VStr (lit "ticker"));
                         (lit "symbol", detectCompanyTicker query) ]))
  /\ existsb (has_type "symbol") (stream (snd (execute P query initial))) = false.
Proof.
  split; [|split; [|split]].
  - rewrite execute_kinds. destruct (search P); [unfold count_kind; simpl; lia|].
    rewrite !count_kind_app, !count_kind_tokens by reflexivity.
    destruct (truthy (detectCompanyTicker query)), (settled P);
      unfold count_kind; simpl; lia.
  - rewrite execute_kinds. destruct (search P).
    + simpl. intros [H|[H|[H|[]]]]; discriminate H.
    + rewrite !in_app_iff.
      destruct (truthy (detectCompanyTicker query)); [reflexivity|].
      intros [H|[[]|[H|H]]].
      * simpl in H. destruct H as [H|[H|[H|[H|[]]]]]; discriminate H.
      * apply repeat_spec in H. discriminate H.
      * destruct (settled P); simpl in H;
          [destruct H as [H|[]]|destruct H as [H|[H|[]]]]; discriminate H.
  - intros p I K.
    destruct (execute_parts _ _ _ I)
      as [->|[->|[->|[(d & _ & ->)|[(_ & ->)|[(f & ->)|[(t & _ & ->)|[->|(e & ->)]]]]]]]];
      try discriminate K.
    reflexivity.
  - rewrite execute_stream. destruct (search P) as [e|d]; [reflexivity|].
    unfold opening. rewrite !existsb_app.
    assert (T : existsb (has_type "symbol") (map Text (answer_fragments P)) = false).
    { induction (answer_fragments P) as [|f r IH]; [reflexivity|exact IH]. }
    rewrite T.
    destruct (truthy (detectCompanyTicker query)), (settled P); reflexivity.
Qed.


End Parts.

(** ** Follow-up questions *)

Lemma In_firstn {A} (n : nat) (l : list A) (x : A) : In x (firstn n l) -> In x l.
Proof.
  intros I. rewrite <- (firstn_skipn n l). apply in_or_app. now left.
Qed.

Lemma followUpQuestions_spec (text : jstring) :
  followUpQuestions text = FollowUpSpec.questions text.
Proof.
  unfold followUpQuestions, FollowUpSpec.questions.
  change 5%Z with (Z.of_nat 5). rewrite slice_from_start, lines_split.
  f_equal. rewrite (map_ext _ _ trim_trimmed).
  apply filter_ext. intros [|c q]; reflexivity.
Qed.

Section FollowUp.

Context {imports : Imports}.

(** C5: the list made from the follow-up text is the text split on line
    breaks, each line trimmed, the empty lines discarded, the first five
    kept; so it has at most five entries and none is empty, and it is empty
    for an empty text.  Every follow-up part of a turn carries the list made
    in this way from the text the follow-up task returned. *)
Theorem follow_up_questions_parsed :
  (forall text,
     followUpQuestions text = FollowUpSpec.questions text
     /\ length (followUpQuestions text) <= 5
     /\ Forall (fun q => q <> []) (followUpQuestions text))
  /\ followUpQuestions [] = []
  /\ (forall P query p,
        In p (stream (snd (execute P query initial))) ->
        kind_of p = KFollowUp ->
        exists text,
          follow_up P = inr text
          /\ p = Data (VObj [ (lit "type", VStr (lit "follow_up_questions"));
                              (lit "questions",
                                VArr (map VStr (FollowUpSpec.questions text))) ])).
Proof.
  split; [|split].
  - intros text. split; [apply followUpQuestions_spec|].
    rewrite followUpQuestions_spec. unfold FollowUpSpec.questions. split.
    + apply firstn_le_length.
    + apply Forall_forall. intros q I. apply In_firstn in I.
      apply filter_In in I. destruct I as [_ N]. now destruct q.
  - reflexivity.
  - intros P query p I K.
    destruct (execute_parts _ _ _ I)
      as [->|[->|[->|[(d & _ & ->)|[(_ & ->)|[(f & ->)|[(t & F & ->)|[->|(e & ->)]]]]]]]];
      try discriminate K.
    exists t. split; [exact F|]. now rewrite followUpQuestions_spec.
Qed.

End FollowUp.

Lemma follow_up_questions_parsed_witness :
  exists text,
    follow_up Sample.good = inr text
    /\ Data (follow_up_event [lit "How are margins?"; lit "What about revenue?"])
       = Data (VObj [ (lit "type", VStr (lit "follow_up_questions"));
                      (lit "questions",
                        VArr (map VStr (FollowUpSpec.questions text))) ]).
Proof.
  destruct (@follow_up_questions_parsed Sample.imports) as (_ & _ & Emitted).
  apply (Emitted Sample.good Sample.apple).
  - vm_compute. do 7 right. left. reflexivity.
  - reflexivity.
Defined.

(** ** The context string *)



Section ContextString.

Context {imports : Imports}.


End ContextString.


Lemma ticker_part_once_witness :
  truthy (Sample.detect Sample.apple) = true
  /\ Data (ticker_event (VStr (lit "AAPL")))
     = Data (VObj [ (lit "type", VStr (lit "ticker"));
                    (lit "symbol", Sample.detect Sample.apple) ]).
Proof.
  destruct (@ticker_part_once Sample.imports Sample.good Sample.apple)
    as (_ & Only & Shape & _).
  split.
  - apply Only. vm_compute. do 4 right. left. reflexivity.
  - apply Shape.
    + vm_compute. do 4 right. left. reflexivity.
    + reflexivity.
Defined.

(** On the sample turn the detected entity travels in a part whose
    discriminator is ["ticker"]; no part of the turn has the discriminator
    ["symbol"]. *)
Lemma detected_entity_discriminator :
  In (Data (ticker_event (VStr (lit "AAPL"))))
     (stream (snd (@execute Sample.imports Sample.good Sample.apple initial)))
  /\ get (ticker_event (VStr (lit "AAPL"))) (lit "type") = VStr (lit "ticker")
  /\ get (ticker_event (VStr (lit "AAPL"))) (lit "type") <> VStr (lit "symbol")
  /\ existsb (has_type "symbol")
       (stream (snd (@execute Sample.imports Sample.good Sample.apple initial)))
     = false.
Proof.
  split; [vm_compute; do 4 right; left; reflexivity|].
  split; [reflexivity|]. split; [discriminate|].
  vm_compute. reflexivity.
Qed.


(** ** The content selector stays within its budget *)

Lemma drop_to_white_space_length (l : jstring) :
  length (ContentSelector.drop_to_white_space l) <= length l.
Proof.
  induction l as [|c r IH]; simpl; [lia|].
  destruct (is_white_space c); simpl; lia.
Qed.

Lemma cut_length (maxLength : nat) (s : jstring) :
  length (ContentSelector.cut maxLength s) <= maxLength.
Proof.
  unfold ContentSelector.cut.
  destruct (length s <=? maxLength) eqn:E; [now apply Nat.leb_le|].
  pose proof (firstn_le_length maxLength s) as L.
  pose proof (drop_to_white_space_length (rev (firstn maxLength s))) as D.
  rewrite length_rev in D.
  destruct (rev (ContentSelector.drop_to_white_space (rev (firstn maxLength s))))
    as [|c kept] eqn:R; [exact L|].
  rewrite <- R, length_rev. lia.
Qed.

(** C3: whatever the text, the query and the budget (and the stride of the
    windows), the excerpt is no longer than the budget, and a text that fits
    the budget is returned as it is. *)
Theorem select_within_budget (stride : nat) (text query : jstring) (maxLength : nat) :
  length (ContentSelector.select stride text query maxLength) <= maxLength
  /\ (length text <= maxLength ->
      ContentSelector.select stride text query maxLength = text).
Proof.
  unfold ContentSelector.select.
  destruct (length text <=? maxLength) eqn:E.
  - apply Nat.leb_le in E. split; [exact E|reflexivity].
  - split.
    + destruct (ContentSelector.candidates stride (ContentSelector.terms query) text);
        [apply firstn_le_length|apply cut_length].
    + apply Nat.leb_gt in E. lia.
Qed.

Lemma select_within_budget_witness :
  length (ContentSelector.select 5 (lit "aaaa bbbb") (lit "Apple") 12) <= 12
  /\ ContentSelector.select 5 (lit "aaaa bbbb") (lit "Apple") 12 = lit "aaaa bbbb".
Proof.
  destruct (select_within_budget 5 (lit "aaaa bbbb") (lit "Apple") 12) as [L Same].
  split; [exact L|]. apply Same. vm_compute. lia.
Defined.

(** ** Error classification *)

Lemma lit_inj (a b : string) : lit a = lit b -> a = b.
Proof.
  unfold lit. intros E.
  assert (L : list_ascii_of_string a = list_ascii_of_string b).
  { revert E. generalize (list_ascii_of_string a) (list_ascii_of_string b).
    intros l. induction l as [|x l IH]; intros [|y l0]; simpl; try discriminate.
    - reflexivity.
    - intros E. injection E as H T. f_equal; [|now apply IH].
      rewrite <- (ascii_N_embedding x), <- (ascii_N_embedding y). now rewrite H. }
  rewrite <- (string_of_list_ascii_of_string a),
          <- (string_of_list_ascii_of_string b).
  now rewrite L.
Qed.

Lemma to_int_canonical (z : Z) :
  NilZero.int_of_string (NilZero.string_of_int (Z.to_int z)) = Some (Z.to_int z).
Proof.
  apply NilZero.isi; destruct z; simpl; try discriminate;
    intros E; injection E; apply DecimalPos.Unsigned.to_uint_nonnil.
Qed.

Lemma string_of_Z_inj (a b : Z) : string_of_Z a = string_of_Z b -> a = b.
Proof.
  unfold string_of_Z. intros E. apply lit_inj in E.
  apply DecimalZ.to_int_inj.
  pose proof (to_int_canonical a) as Ca. rewrite E, to_int_canonical in Ca.
  now injection Ca.
Qed.

Lemma string_of_Z_eqb (a b : Z) :
  jstring_eqb (string_of_Z a) (string_of_Z b) = (a =? b)%Z.
Proof.
  destruct (a =? b)%Z eqn:E.
  - apply Z.eqb_eq in E. subst. apply jstring_eqb_refl.
  - apply jstring_eqb_neq. intros H. apply string_of_Z_inj in H.
    apply Z.eqb_neq in E. contradiction.
Qed.

(** A name that does not read as a number is not the name of a number. *)
Lemma string_of_Z_not (s : string) (z : Z) :
  NilZero.int_of_string s = None -> jstring_eqb (string_of_Z z) (lit s) = false.
Proof.
  intros N. apply jstring_eqb_neq. unfold string_of_Z. intros H.
  apply lit_inj in H. pose proof (to_int_canonical z) as C.
  rewrite H, N in C. discriminate.
Qed.

Lemma errorResponses_at_number (z : Z) :
  errorResponses_at (VNum z)
  = if (z =? 401)%Z then
      entry "Invalid API key" "Please check your Firecrawl API key is correct."
    else if (z =? 402)%Z then
      entry "Insufficient credits"
        "You've run out of Firecrawl credits. Please upgrade your plan."
    else if (z =? 429)%Z then
      entry "Rate limit exceeded"
        "Too many requests. Please wait a moment and try again."
    else if (z =? 504)%Z then
      entry "Request timeout"
        "The search took too long. Try a simpler query or fewer sources."
    else VUndefined.
Proof.
  unfold errorResponses_at, errorResponses, Object_prototype_keys.
  change (to_string (VNum z)) with (string_of_Z z).
  change (lit "401") with (string_of_Z 401).
  change (lit "402") with (string_of_Z 402).
  change (lit "429") with (string_of_Z 429).
  change (lit "504") with (string_of_Z 504).
  cbn [obj_has obj_get map existsb].
  rewrite !string_of_Z_eqb, !(Z.eqb_sym _ z).
  rewrite !string_of_Z_not by reflexivity.
  destruct (z =? 401)%Z; [reflexivity|].
  destruct (z =? 402)%Z; [reflexivity|].
  destruct (z =? 429)%Z; [reflexivity|].
  destruct (z =? 504)%Z; reflexivity.
Qed.

Lemma errorData_known (error : thrown) (z : Z) (message suggestion : string) :
  statusCode error = VNum z -> z <> 0%Z ->
  errorResponses_at (VNum z) = entry message suggestion ->
  suggestion <> ""%string ->
  errorData error
  = VObj [ (lit "type", VStr (lit "error")); (lit "error", VStr (lit message));
           (lit "suggestion", VStr (lit suggestion)); (lit "statusCode", VNum z) ].
Proof.
  intros C NZ R S. unfold errorData, errorResponse. rewrite C, R.
  assert (T : truthy (VNum z) = true).
  { simpl. apply Z.eqb_neq in NZ. now rewrite NZ. }
  unfold and_. rewrite T.
  change (truthy (entry message suggestion)) with true. cbv iota.
  change (get (entry message suggestion) (lit "error")) with (VStr (lit message)).
  change (get (entry message suggestion) (lit "suggestion"))
    with (VStr (lit suggestion)).
  destruct suggestion as [|c r]; [contradiction|]. reflexivity.
Qed.

Lemma errorData_unknown (error : thrown) :
  truthy (and_ (statusCode error) (errorResponses_at (statusCode error))) = false ->
  errorData error
  = VObj ([ (lit "type", VStr (lit "error")); (lit "error", errorMessage error) ]
          ++ (if truthy (statusCode error)
              then [ (lit "statusCode", statusCode error) ] else [])).
Proof.
  intros F. unfold errorData, errorResponse. rewrite F. reflexivity.
Qed.

(** C4, as amended: the status code of a failure is its [statusCode]
    property when the failure is an object that has one, else its [status]
    property, else none.  The codes 401, 402, 429 and 504 give the messages
    "Invalid API key", "Insufficient credits", "Rate limit exceeded" and
    "Request timeout", each with its suggestion and the code.  Any other
    numeric code, and no code, give the message of the failure when the
    failure is an instance of [Error] and the text "Unknown error" when it
    is not, without a suggestion. *)
Theorem classification (error : thrown) :
  (forall fields, object_fields error = Some fields ->
     statusCode error
     = if obj_has fields (lit "statusCode") then obj_get fields (lit "statusCode")
       else if obj_has fields (lit "status") then obj_get fields (lit "status")
       else VUndefined)
  /\ (object_fields error = None -> statusCode error = VUndefined)
  /\ (statusCode error = VNum 401 ->
      errorData error
      = VObj [ (lit "type", VStr (lit "error"));
               (lit "error", VStr (lit "Invalid API key"));
               (lit "suggestion",
                 VStr (lit "Please check your Firecrawl API key is correct."));
               (lit "statusCode", VNum 401) ])
  /\ (statusCode error = VNum 402 ->
      errorData error
      = VObj [ (lit "type", VStr (lit "error"));
               (lit "error", VStr (lit "Insufficient credits"));
               (lit "suggestion",
                 VStr (lit "You've run out of Firecrawl credits. Please upgrade your plan."));
               (lit "statusCode", VNum 402) ])
  /\ (statusCode error = VNum 429 ->
      errorData error
      = VObj [ (lit "type", VStr (lit "error"));
               (lit "error", VStr (lit "Rate limit exceeded"));
               (lit "suggestion",
                 VStr (lit "Too many requests. Please wait a moment and try again."));
               (lit "statusCode", VNum 429) ])
  /\ (statusCode error = VNum 504 ->
      errorData error
      = VObj [ (lit "type", VStr (lit "error"));
               (lit "error", VStr (lit "Request timeout"));
               (lit "suggestion",
                 VStr (lit "The search took too long. Try a simpler query or fewer sources."));
               (lit "statusCode", VNum 504) ])
  /\ (forall z, statusCode error = VNum z ->
        z <> 401%Z -> z <> 402%Z -> z <> 429%Z -> z <> 504%Z ->
        errorData error
        = VObj ([ (lit "type", VStr (lit "error"));
                  (lit "error", errorMessage error) ]
                ++ (if (z =? 0)%Z then [] else [ (lit "statusCode", VNum z) ])))
  /\ (statusCode error = VUndefined ->
      errorData error
      = VObj [ (lit "type", VStr (lit "error")); (lit "error", errorMessage error) ])
  /\ errorMessage error
     = match error with
       | ErrorInstance fields => obj_get fields (lit "message")
       | Other _ => VStr (lit "Unknown error")
       end.
Proof.
  split; [|split].
  { intros fields O. unfold statusCode. now rewrite O. }
  { intros O. unfold statusCode. now rewrite O. }
  repeat split.
  - intros C. apply (errorData_known _ C); [lia|reflexivity|discriminate].
  - intros C. apply (errorData_known _ C); [lia|reflexivity|discriminate].
  - intros C. apply (errorData_known _ C); [lia|reflexivity|discriminate].
  - intros C. apply (errorData_known _ C); [lia|reflexivity|discriminate].
  - intros z C N1 N2 N3 N4.
    assert (U : errorResponses_at (VNum z) = VUndefined).
    { rewrite errorResponses_at_number.
      apply Z.eqb_neq in N1, N2, N3, N4. now rewrite N1, N2, N3, N4. }
    rewrite errorData_unknown.
    + rewrite C. simpl truthy. destruct (z =? 0)%Z; reflexivity.
    + rewrite C, U. unfold and_. simpl truthy.
      destruct (z =? 0)%Z eqn:E; simpl; [now rewrite E|reflexivity].
  - intros C. rewrite errorData_unknown; rewrite C; reflexivity.
Qed.

(** A thrown object that is not an [Error] loses its own message: with the
    unlisted code 502 the part carries "Unknown error". *)
Lemma description_of_plain_object :
  statusCode Sample.plain_object = VNum 502
  /\ own_description Sample.plain_object = VStr (lit "bad gateway")
  /\ get (errorData Sample.plain_object) (lit "error") = VStr (lit "Unknown error")
  /\ get (errorData Sample.plain_object) (lit "error")
     <> own_description Sample.plain_object.
Proof.
  split; [reflexivity|]. split; [reflexivity|].
  split; [vm_compute; reflexivity|]. vm_compute. discriminate.
Qed.

Lemma classification_witness :
  errorData Sample.rate_limited
  = VObj [ (lit "type", VStr (lit "error"));
           (lit "error", VStr (lit "Rate limit exceeded"));
           (lit "suggestion",
             VStr (lit "Too many requests. Please wait a moment and try again."));
           (lit "statusCode", VNum 429) ]
  /\ errorData Sample.plain_object
     = VObj [ (lit "type", VStr (lit "error"));
              (lit "error", VStr (lit "Unknown error"));
              (lit "statusCode", VNum 502) ].
Proof.
  split.
  - destruct (classification Sample.rate_limited)
      as (_ & _ & _ & _ & Limited & _).
    apply Limited. reflexivity.
  - destruct (classification Sample.plain_object)
      as (_ & _ & _ & _ & _ & _ & Unlisted & _).
    apply (Unlisted 502%Z); [reflexivity|lia|lia|lia|lia].
Defined.

(** ** Requests without a query *)

Section Requests.

Context {imports : Imports}.


(** C9: a request whose last message has the empty string as content and
    whose [query] field is falsy (absent, or empty) is answered as the
    request without messages and without query is: status 400, "Query is
    required". *)
Theorem empty_content_rejected (env : process_env) (P : providers)
    (messages : list value) (fields : list (jstring * value))
    (query key : value) :
  last_elem messages = VObj fields ->
  obj_get fields (lit "content") = VStr [] ->
  truthy query = false ->
  POST env P (mkRequest (inr (Body messages query key)))
  = POST env P (mkRequest (inr (Body [] VUndefined key)))
  /\ POST env P (mkRequest (inr (Body messages query key)))
     = (JsonResponse (VObj [ (lit "error", VStr (lit "Query is required")) ]) 400,
        initial).
Proof.
  intros L C Q.
  assert (T : truthy (extract_query messages query) = false).
  { unfold extract_query. rewrite L. simpl get_opt. rewrite C.
    unfold or_. simpl truthy. exact Q. }
  unfold POST. cbn [json]. cbv zeta. rewrite !T. split; reflexivity.
Qed.

End Requests.



Lemma empty_content_rejected_witness :
  @POST Sample.imports Sample.env Sample.good Sample.empty_content
  = @POST Sample.imports Sample.env Sample.good Sample.no_query.
Proof.
  apply (@empty_content_rejected Sample.imports Sample.env Sample.good
           [ VObj [ (lit "role", VStr (lit "user")); (lit "content", VStr []) ] ]
           [ (lit "role", VStr (lit "user")); (lit "content", VStr []) ]
           VUndefined VUndefined); reflexivity.
Defined.

(** ** More on the handler: credentials, provider calls, terminal parts *)

Lemma truthy_or (a b : value) : truthy (or_ a b) = truthy a || truthy b.
Proof. unfold or_. destruct (truthy a) eqn:E; [exact E|reflexivity]. Qed.

Section Handler.

Context {imports : Imports}.


Lemma execute_calls (P : providers) (query : value) :
  calls (snd (execute P query initial))
  = match search P with
    | inl _ => [ SearchCall query 6 ]
    | inr d => generation_calls d query
    end.
Proof.
  unfold execute, try_catch. destruct (search P) as [e|d] eqn:S.
  - rewrite (execute_try_search_rejects _ _ S). reflexivity.
  - rewrite (execute_try_search_resolves _ _ S).
    destruct (settled P); reflexivity.
Qed.







End Handler.


(** ** More on the sources, the query and the error table *)

Lemma filter_map_swap {A B} (f : B -> bool) (g : A -> B) (l : list A) :
  filter f (map g l) = map g (filter (fun x => f (g x)) l).
Proof.
  induction l as [|x l IH]; simpl; [reflexivity|].
  destruct (f (g x)); simpl; now rewrite IH.
Qed.

(** X6: the documents of a turn are the search results that have a truthy
    url, each transformed, in the provider's order; results without a url are
    dropped and nothing else is, so there are never more documents than
    results. *)
Theorem transform_sources_keeps_urls (d : search_data) :
  transform_sources d
  = match data d with
    | None => []
    | Some items =>
        map transform_item
          (filter (fun item => truthy (obj_get item (lit "url"))) items)
    end
  /\ length (transform_sources d)
     <= match data d with Some items => length items | None => 0 end.
Proof.
  unfold transform_sources.
  destruct (data d) as [items|]; [|split; [reflexivity|simpl; lia]].
  rewrite filter_map_swap. split; [reflexivity|].
  rewrite length_map. apply filter_length_le.
Qed.

Section EmptySearch.

Context {imports : Imports}.


(** X8: the query that reaches the search provider is the content of the
    last message when that is truthy, whatever the earlier messages and the
    [query] field are, and the [query] field otherwise. *)
Theorem query_is_last_content (env : process_env) (P : providers)
    (earlier : list value) (m query key : value) :
  truthy key || truthy (FIRECRAWL_API_KEY env) = true ->
  truthy (OPENAI_API_KEY env) = true ->
  truthy (if truthy (get_opt m (lit "content"))
          then get_opt m (lit "content") else query) = true ->
  hd_error (calls (snd (POST env P
                          (mkRequest (inr (Body (earlier ++ [m]) query key))))))
  = Some (SearchCall (if truthy (get_opt m (lit "content"))
                      then get_opt m (lit "content") else query) 6).
Proof.
  intros F O Q.
  assert (E : extract_query (earlier ++ [m]) query
              = if truthy (get_opt m (lit "content"))
                then get_opt m (lit "content") else query).
  { unfold extract_query, last_elem. rewrite last_last. reflexivity. }
  unfold POST. cbn [json]. cbv zeta. rewrite E, Q, truthy_or, F, O. cbn [negb snd].
  rewrite execute_calls. destruct (search P); reflexivity.
Qed.

End EmptySearch.


Lemma query_is_last_content_witness :
  hd_error
    (calls (snd (@POST Sample.imports Sample.env Sample.good
                   (mkRequest
                      (inr (Body ([ message "user" (lit "first") ]
                                    ++ [ message "user" (lit "second") ])
                              (VStr (lit "ignored")) VUndefined))))))
  = Some (SearchCall (VStr (lit "second")) 6).
Proof.
  apply (@query_is_last_content Sample.imports Sample.env Sample.good
           [ message "user" (lit "first") ] (message "user" (lit "second"))
           (VStr (lit "ignored")) VUndefined); reflexivity.
Defined.

(** X9: the table of error responses is read by the name the status code
    converts to, so a code that is the text of a listed number gets that
    number's message and suggestion, and the part carries the code as it
    came.  A code whose name is a property every object inherits finds that
    property instead: the part then has no message. *)
Theorem status_code_read_by_name (error : thrown) :
  truthy (statusCode error) = true ->
  (forall name message suggestion,
     In (lit name, entry message suggestion) errorResponses ->
     to_string (statusCode error) = lit name ->
     errorData error
     = VObj [ (lit "type", VStr (lit "error")); (lit "error", VStr (lit message));
              (lit "suggestion", VStr (lit suggestion));
              (lit "statusCode", statusCode error) ])
  /\ (In (to_string (statusCode error)) Object_prototype_keys ->
      errorData error
      = VObj [ (lit "type", VStr (lit "error")); (lit "error", VUndefined);
               (lit "statusCode", statusCode error) ]).
Proof.
  intros T. split.
  - intros name message suggestion I N.
    unfold errorData, errorResponse, errorResponses_at, and_. rewrite T, N.
    simpl in I.
    destruct I as [I|[I|[I|[I|[]]]]]; injection I as L <- <-;
      apply lit_inj in L; subst name; reflexivity.
  - intros I. unfold errorData, errorResponse, errorResponses_at, and_. rewrite T.
    simpl in I.
    repeat (destruct I as [I|I]; [rewrite <- I; reflexivity|]).
    destruct I.
Qed.

Lemma status_code_read_by_name_witness :
  errorData (ErrorInstance [ (lit "message", VStr (lit "slow down"));
                             (lit "status", VStr (lit "429")) ])
  = VObj [ (lit "type", VStr (lit "error"));
           (lit "error", VStr (lit "Rate limit exceeded"));
           (lit "suggestion",
             VStr (lit "Too many requests. Please wait a moment and try again."));
           (lit "statusCode", VStr (lit "429")) ]
  /\ errorData (ErrorInstance [ (lit "message", VStr (lit "odd"));
                                (lit "statusCode", VStr (lit "toString")) ])
     = VObj [ (lit "type", VStr (lit "error")); (lit "error", VUndefined);
              (lit "statusCode", VStr (lit "toString")) ].
Proof.
  split.
  - destruct (status_code_read_by_name
                (ErrorInstance [ (lit "message", VStr (lit "slow down"));
                                 (lit "status", VStr (lit "429")) ]) eq_refl)
      as [Listed _].
    apply (Listed "429"%string "Rate limit exceeded"%string
             "Too many requests. Please wait a moment and try again."%string);
      [simpl; auto|reflexivity].
  - destruct (status_code_read_by_name
                (ErrorInstance [ (lit "message", VStr (lit "odd"));
                                 (lit "statusCode", VStr (lit "toString")) ]) eq_refl)
      as [_ Inherited].
    apply Inherited. simpl. auto 12.
Defined.

(** ** More on the follow-up questions and the context *)

Lemma strip_left_clean (s : jstring) :
  match FollowUpSpec.strip_left s with
  | c :: _ => is_white_space c = false
  | [] => True
  end.
Proof.
  induction s as [|c r IH]; simpl; [exact I|].
  destruct (is_white_space c) eqn:E; [exact IH|exact E].
Qed.

Lemma strip_left_fixed (s : jstring) :
  match s with c :: _ => is_white_space c = false | [] => True end ->
  FollowUpSpec.strip_left s = s.
Proof. destruct s as [|c r]; simpl; [reflexivity|]. now intros ->. Qed.

Lemma strip_left_suffix (s : jstring) :
  exists w, s = w ++ FollowUpSpec.strip_left s.
Proof.
  induction s as [|c r [w IH]]; simpl; [now exists []|].
  destruct (is_white_space c).
  - exists (c :: w). simpl. now rewrite <- IH.
  - now exists [].
Qed.

Lemma strip_left_idempotent (s : jstring) :
  FollowUpSpec.strip_left (FollowUpSpec.strip_left s) = FollowUpSpec.strip_left s.
Proof. apply strip_left_fixed, strip_left_clean. Qed.

(** What is trimmed is trimmed already. *)
Lemma trim_idempotent (s : jstring) : trim (trim s) = trim s.
Proof.
  rewrite !trim_trimmed. unfold FollowUpSpec.trimmed.
  set (t := FollowUpSpec.strip_left s).
  set (u := FollowUpSpec.strip_left (rev t)).
  assert (F : FollowUpSpec.strip_left (rev u) = rev u).
  { apply strip_left_fixed.
    destruct (strip_left_suffix (rev t)) as [w W]. fold u in W.
    assert (T : t = rev u ++ rev w).
    { rewrite <- rev_app_distr, <- W. now rewrite rev_involutive. }
    pose proof (strip_left_clean s) as C. fold t in C.
    destruct (rev u) as [|c r]; [exact I|].
    rewrite T in C. exact C. }
  rewrite F, rev_involutive. unfold u. now rewrite strip_left_idempotent.
Qed.

Lemma In_strip_left (c : N) (s : jstring) :
  In c (FollowUpSpec.strip_left s) -> In c s.
Proof.
  intros I. destruct (strip_left_suffix s) as [w W]. rewrite W.
  apply in_or_app. now right.
Qed.

Lemma In_trim (c : N) (s : jstring) : In c (trim s) -> In c s.
Proof.
  rewrite trim_trimmed. unfold FollowUpSpec.trimmed. intros I.
  apply In_strip_left. apply in_rev. apply In_strip_left. now apply in_rev.
Qed.

Lemma split_pieces_without_separator (sep : N) (s piece : jstring) :
  In piece (split sep s) -> ~ In sep piece.
Proof.
  revert piece. induction s as [|c r IH]; intros piece; simpl.
  - intros [<-|[]]. intros [].
  - destruct (c =? sep)%N eqn:E.
    + intros [<-|I]; [intros []|now apply IH].
    + destruct (split sep r) as [|h t] eqn:S; [now apply split_not_nil in S|].
      intros [<-|I].
      * intros [C|C]; [apply N.eqb_neq in E; congruence|].
        apply (IH h); [now left|exact C].
      * apply IH. now right.
Qed.

(** X10: every follow-up question is the trimmed form of one line of the
    text, so it neither starts nor ends with white space (trimming it again
    changes nothing) and it holds no line break. *)
Theorem follow_up_questions_trimmed (text : jstring) :
  Forall (fun q => (exists line, In line (split nl text) /\ q = trim line)
                   /\ trim q = q
                   /\ ~ In nl q)
         (followUpQuestions text).
Proof.
  apply Forall_forall. intros q I.
  rewrite followUpQuestions_spec in I. unfold FollowUpSpec.questions in I.
  apply In_firstn in I. apply filter_In in I. destruct I as [I _].
  apply in_map_iff in I. destruct I as (line & <- & L).
  rewrite lines_split in L. rewrite <- trim_trimmed.
  split; [now exists line|]. split; [apply trim_idempotent|].
  intros B. apply In_trim in B.
  exact (split_pieces_without_separator _ _ _ L B).
Qed.

Lemma map_from_app {A B} (f : A -> nat -> B) (i : nat) (a b : list A) :
  map_from f i (a ++ b) = map_from f i a ++ map_from f (i + length a) b.
Proof.
  revert i. induction a as [|x a IH]; intros i; simpl.
  - now rewrite Nat.add_0_r.
  - rewrite IH. now rewrite Nat.add_succ_r.
Qed.

Lemma join_snoc (sep x : jstring) (l : list jstring) :
  l <> [] -> join sep (l ++ [x]) = join sep l ++ sep ++ x.
Proof.
  induction l as [|y l IH]; [contradiction|]. intros _.
  destruct l as [|z l].
  - reflexivity.
  - change ((y :: z :: l) ++ [x]) with (y :: (z :: l) ++ [x]).
    change ((z :: l) ++ [x]) with (z :: l ++ [x]) at 1.
    rewrite !join_cons.
    change (z :: l ++ [x]) with ((z :: l) ++ [x]).
    rewrite IH by discriminate. now rewrite <- !app_assoc.
Qed.

Section ContextGrows.

Context {imports : Imports}.

(** X11: the context of no document is the empty string, and one more
    document at the end of a non-empty list adds the delimiter and its block,
    numbered after the others, to the context of the others, which stays as
    it was. *)
Theorem context_appends (sources : list value) (source query : value) :
  build_context [] query = []
  /\ (sources <> [] ->
      build_context (sources ++ [source]) query
      = build_context sources query ++ delimiter
        ++ lit "[" ++ string_of_Z (Z.of_nat (length sources) + 1) ++ lit "] "
        ++ to_string (get source (lit "title")) ++ [nl]
        ++ lit "URL: " ++ to_string (get source (lit "url")) ++ [nl]
        ++ selectRelevantContent
             (or_ (or_ (get source (lit "markdown")) (get source (lit "content")))
                  (VStr []))
             query 2000).
Proof.
  split; [reflexivity|]. intros N.
  unfold build_context, mapi. rewrite map_from_app. simpl map_from.
  rewrite join_snoc.
  - reflexivity.
  - destruct sources; [contradiction|discriminate].
Qed.

End ContextGrows.

Lemma context_appends_witness :
  @build_context Sample.imports
    ([ transform_item (Sample.item "https://a.example" "A" "alpha") ]
     ++ [ transform_item (Sample.item "https://b.example" "B" "beta") ])
    Sample.paris
  = lit "[1] A" ++ [nl] ++ lit "URL: https://a.example" ++ [nl] ++ lit "alpha"
    ++ [nl; nl] ++ lit "---" ++ [nl; nl]
    ++ lit "[2] B" ++ [nl] ++ lit "URL: https://b.example" ++ [nl] ++ lit "beta".
Proof.
  destruct (@context_appends Sample.imports
              [ transform_item (Sample.item "https://a.example" "A" "alpha") ]
              (transform_item (Sample.item "https://b.example" "B" "beta"))
              Sample.paris) as [_ Grows].
  rewrite Grows by discriminate. vm_compute. reflexivity.
Defined.

(** ** The conversation in the prompts *)

Lemma slice_drop_last {A} (l : list A) : slice 0 (-1) l = removelast l.
Proof.
  unfold slice, relative_index.
  replace (0 <? 0)%Z with false by reflexivity.
  replace (-1 <? 0)%Z with true by reflexivity.
  rewrite (Z.min_l 0) by lia. simpl skipn. rewrite Z.sub_0_r.
  rewrite removelast_firstn_len. f_equal. lia.
Qed.

Lemma map_throwing_all {A B} (f : A -> thrown + B) (g : A -> B) (l : list A) :
  (forall x, In x l -> f x = inr (g x)) -> map_throwing f l = inr (map g l).
Proof.
  induction l as [|x l IH]; intros H; simpl; [reflexivity|].
  rewrite (H x) by now left. rewrite IH; [reflexivity|].
  intros y I. apply H. now right.
Qed.

Lemma map_throwing_first {A B} (f : A -> thrown + B) (g : A -> B)
    (before after : list A) (x : A) (e : thrown) :
  (forall y, In y before -> f y = inr (g y)) -> f x = inl e ->
  map_throwing f (before ++ x :: after) = inl e.
Proof.
  induction before as [|y l IH]; intros H E; simpl.
  - now rewrite E.
  - rewrite (H y) by now left. rewrite IH; [reflexivity| |exact E].
    intros z I. apply H. now right.
Qed.

Lemma role_and_content_of (m : value) :
  nullish m = false ->
  role_and_content m
  = inr (VObj [ (lit "role", get m (lit "role"));
                (lit "content", get m (lit "content")) ]).
Proof. destruct m; try discriminate; reflexivity. Qed.

Lemma role_and_content_null (m : value) :
  nullish m = true -> role_and_content m = inl (TypeError_reading m "role").
Proof. destruct m; try discriminate; reflexivity. Qed.

Lemma preview_line_of (m : value) :
  nullish m = false ->
  preview_line m
  = inr (to_string (get m (lit "role")) ++ lit ": "
           ++ to_string (get m (lit "content"))).
Proof. destruct m; try discriminate; reflexivity. Qed.

Lemma preview_line_null (m : value) :
  nullish m = true -> preview_line m = inl (TypeError_reading m "role").
Proof. destruct m; try discriminate; reflexivity. Qed.


Lemma aiMessages_first (messages : list value) (query : value) (context : jstring) :
  length messages <= 2 ->
  aiMessages messages query context
  = inr [ message "system" initial_system_prompt;
          message "user" (answer_prompt query context) ].
Proof.
  unfold aiMessages, isFollowUp. intros L. apply Nat.ltb_ge in L. now rewrite L.
Qed.

Lemma aiMessages_later (messages : list value) (query : value) (context : jstring) :
  2 < length messages ->
  Forall (fun m => nullish m = false) (removelast messages) ->
  aiMessages messages query context
  = inr (message "system" follow_up_system_prompt
         :: map (fun m => VObj [ (lit "role", get m (lit "role"));
                                 (lit "content", get m (lit "content")) ])
              (removelast messages)
         ++ [ message "user" (answer_prompt query context) ]).
Proof.
  unfold aiMessages, isFollowUp. intros L F.
  apply Nat.ltb_lt in L. rewrite L. cbn [negb].
  rewrite slice_drop_last.
  rewrite (map_throwing_all role_and_content
             (fun m => VObj [ (lit "role", get m (lit "role"));
                              (lit "content", get m (lit "content")) ])).
  - reflexivity.
  - intros m I. apply role_and_content_of.
    rewrite Forall_forall in F. now apply F.
Qed.

(** X12: on a first turn (at most two messages) the answer task receives
    the system prompt and one user message with the query and the context,
    and the conversation is not read.  On a later turn it receives the
    follow-up system prompt, then every message but the last, in order and
    reduced to its role and content, then the user message with the query
    and the context in place of the last message. *)
Theorem aiMessages_shape (messages : list value) (query : value) (context : jstring) :
  (length messages <= 2 ->
   aiMessages messages query context
   = inr [ message "system" initial_system_prompt;
           message "user" (answer_prompt query context) ])
  /\ (2 < length messages ->
      Forall (fun m => nullish m = false) (removelast messages) ->
      aiMessages messages query context
      = inr (message "system" follow_up_system_prompt
             :: map (fun m => VObj [ (lit "role", get m (lit "role"));
                                     (lit "content", get m (lit "content")) ])
                  (removelast messages)
             ++ [ message "user" (answer_prompt query context) ])
      /\ length (removelast messages) + 2 = length messages + 1).
Proof.
  split; [apply aiMessages_first|].
  intros L F. split; [now apply aiMessages_later|].
  rewrite removelast_firstn_len, length_firstn. lia.
Qed.

Lemma aiMessages_shape_witness :
  aiMessages [ message "user" (lit "a"); message "assistant" (lit "b");
               VObj [ (lit "id", VStr (lit "m3")); (lit "role", VStr (lit "user"));
                      (lit "content", VStr (lit "c")) ] ]
    (VStr (lit "c")) (lit "ctx")
  = inr [ message "system" follow_up_system_prompt;
          message "user" (lit "a"); message "assistant" (lit "b");
          message "user" (answer_prompt (VStr (lit "c")) (lit "ctx")) ].
Proof.
  destruct (aiMessages_shape
              [ message "user" (lit "a"); message "assistant" (lit "b");
                VObj [ (lit "id", VStr (lit "m3")); (lit "role", VStr (lit "user"));
                       (lit "content", VStr (lit "c")) ] ]
              (VStr (lit "c")) (lit "ctx")) as [_ Later].
  destruct Later as [Shape _].
  - simpl. lia.
  - repeat constructor.
  - exact Shape.
Defined.

Section History.

Context {imports : Imports}.

Lemma execute_try_with_resolves (messages : list value) (P : providers)
    (query : value) (d : search_data) :
  search P = inr d ->
  execute_try_with messages P query initial
  = match aiMessages messages query (build_context (transform_sources d) query),
          conversationPreview messages query with
    | inr _, inr _ => execute_try P query initial
    | inl e, _ | inr _, inl e =>
        (Thrown e,
         mkState
           ([ Data (status_event "Starting search...");
              Data (status_event "Searching for relevant sources...");
              Data (sources_event (transform_sources d));
              Data (status_event "Analyzing sources and generating answer...") ]
            ++ (if truthy (detectCompanyTicker query)
                then [ Data (ticker_event (detectCompanyTicker query)) ] else []))
           [ SearchCall query 6 ])
    end.
Proof.
  intros S. rewrite (execute_try_search_resolves _ _ S).
  unfold execute_try_with, firecrawl_search, promise_all, opening, generation_calls.
  unfold bind at 1 2 3. unfold writeData at 1 2, log_call at 1, initial. simpl.
  rewrite S. unfold bind, ret, throw, writeData, log_call. simpl.
  destruct (truthy (detectCompanyTicker query)); simpl;
    destruct (aiMessages messages query (build_context (transform_sources d) query));
    simpl; try reflexivity;
    destruct (conversationPreview messages query); simpl; try reflexivity;
    rewrite for_each_writeText; simpl;
    destruct (settled P) as [e|results]; simpl;
    rewrite <- ?app_assoc; reflexivity.
Qed.



(** X14: on a later turn a message that is [null] or [undefined] ends the
    turn once the search has resolved: after the sources part, the third
    status part and the ticker part, the only further part is the error part
    with the engine's message about reading [role]; no fragment is forwarded
    and no generation task is started. *)
Theorem null_message_ends_turn (messages before after : list value) (m : value)
    (P : providers) (query : value) (d : search_data) :
  2 < length messages ->
  messages = before ++ m :: after ->
  Forall (fun x => nullish x = false) before ->
  nullish m = true ->
  search P = inr d ->
  stream (snd (execute_with messages P query initial))
  = [ Data (status_event "Starting search...");
      Data (status_event "Searching for relevant sources...");
      Data (sources_event (transform_sources d));
      Data (status_event "Analyzing sources and generating answer...") ]
    ++ (if truthy (detectCompanyTicker query)
        then [ Data (ticker_event (detectCompanyTicker query)) ] else [])
    ++ [ Data (VObj [ (lit "type", VStr (lit "error"));
                      (lit "error",
                        VStr (lit "Cannot read properties of " ++ to_string m
                                ++ lit " (reading 'role')")) ]) ]
  /\ calls (snd (execute_with messages P query initial)) = [ SearchCall query 6 ].
Proof.
  intros L E F N S. unfold execute_with, try_catch.
  rewrite (execute_try_with_resolves _ _ _ S).
  assert (T : match aiMessages messages query
                      (build_context (transform_sources d) query),
                    conversationPreview messages query with
              | inr _, inr _ => False
              | inl e, _ | inr _, inl e => e = TypeError_reading m "role"
              end).
  { rewrite Forall_forall in F.
    unfold aiMessages, conversationPreview, isFollowUp.
    pose proof L as L'. apply Nat.ltb_lt in L'. rewrite L'. cbn [negb].
    rewrite slice_drop_last, E.
    destruct after as [|a after].
    - rewrite removelast_last.
      rewrite (map_throwing_all role_and_content
                 (fun m => VObj [ (lit "role", get m (lit "role"));
                                  (lit "content", get m (lit "content")) ]))
        by (intros x I; apply role_and_content_of; now apply F).
      rewrite (map_throwing_first preview_line
                 (fun m => to_string (get m (lit "role")) ++ lit ": "
                             ++ to_string (get m (lit "content")))
                 before [] m (e := TypeError_reading m "role"));
        [reflexivity| |now apply preview_line_null].
      intros x I. apply preview_line_of. now apply F.
    - rewrite removelast_app by discriminate.
      change (removelast (m :: a :: after)) with (m :: removelast (a :: after)).
      rewrite (map_throwing_first role_and_content
                 (fun m => VObj [ (lit "role", get m (lit "role"));
                                  (lit "content", get m (lit "content")) ])
                 before (removelast (a :: after)) m
                 (e := TypeError_reading m "role"));
        [reflexivity| |now apply role_and_content_null].
      intros x I. apply role_and_content_of. now apply F. }
  destruct (aiMessages messages query (build_context (transform_sources d) query))
    as [e|ai].
  - subst e. simpl. rewrite <- ?app_assoc. split; reflexivity.
  - destruct (conversationPreview messages query) as [e|preview]; [|destruct T].
    subst e. simpl. rewrite <- ?app_assoc. split; reflexivity.
Qed.

End History.


Lemma null_message_ends_turn_witness :
  calls (snd (@execute_with Sample.imports
                [ message "user" (lit "a"); VNull;
                  message "user" (lit "How is Apple doing lately") ]
                Sample.good Sample.apple initial))
  = [ SearchCall Sample.apple 6 ].
Proof.
  destruct (@null_message_ends_turn Sample.imports
              [ message "user" (lit "a"); VNull;
                message "user" (lit "How is Apple doing lately") ]
              [ message "user" (lit "a") ]
              [ message "user" (lit "How is Apple doing lately") ]
              VNull Sample.good Sample.apple Sample.results) as [_ Calls].
  - simpl. lia.
  - reflexivity.
  - repeat constructor.
  - reflexivity.
  - reflexivity.
  - exact Calls.
Defined.

(** ** The page: the effect on the stream data *)

Lemma slice_from_index {A} (n : nat) (l : list A) :
  slice (Z.of_nat n) (Z.of_nat (length l)) l = skipn n l.
Proof.
  unfold slice, relative_index.
  destruct (Z.of_nat n <? 0)%Z eqn:E; [apply Z.ltb_lt in E; lia|].
  destruct (Z.of_nat (length l) <? 0)%Z eqn:E'; [apply Z.ltb_lt in E'; lia|].
  rewrite Z.min_id, <- Nat2Z.inj_min, <- Nat2Z.inj_sub by apply Nat.le_min_r.
  rewrite !Nat2Z.id.
  destruct (Nat.le_gt_cases n (length l)) as [L|L].
  - rewrite Nat.min_l by exact L. apply firstn_all2. rewrite length_skipn. lia.
  - rewrite Nat.min_r by lia. rewrite Nat.sub_diag.
    rewrite (skipn_all2 l (n := n)) by lia. reflexivity.
Qed.

Ltac split_conditions :=
  repeat match goal with
         | |- context [if ?c then _ else _] => destruct c
         end.

Lemma process_item_display (m m' : Page.Map) (s s' : Page.state) (item : value) :
  Page.display s = Page.display s' ->
  Page.display (Page.process_item m s item)
  = Page.display (Page.process_item m' s' item).
Proof.
  unfold Page.display. intros D. injection D as D1 D2 D3 D4.
  unfold Page.process_item. cbv zeta. split_conditions; simpl;
    rewrite ?D1, ?D2, ?D3, ?D4; reflexivity.
Qed.

Lemma process_item_refs (m : Page.Map) (s : Page.state) (item : value) :
  Page.currentMessageIndex (Page.process_item m s item) = Page.currentMessageIndex s
  /\ Page.lastDataLength (Page.process_item m s item) = Page.lastDataLength s.
Proof.
  unfold Page.process_item. cbv zeta. split_conditions; split; reflexivity.
Qed.

Lemma fold_process_display (m m' : Page.Map) (items : list value)
    (s s' : Page.state) :
  Page.display s = Page.display s' ->
  Page.display (fold_left (Page.process_item m) items s)
  = Page.display (fold_left (Page.process_item m') items s').
Proof.
  revert s s'. induction items as [|x l IH]; intros s s' D; simpl; [exact D|].
  apply IH. now apply process_item_display.
Qed.

Lemma fold_process_index (m : Page.Map) (items : list value) (s : Page.state) :
  Page.currentMessageIndex (fold_left (Page.process_item m) items s)
  = Page.currentMessageIndex s.
Proof.
  revert s. induction items as [|x l IH]; intros s; simpl; [reflexivity|].
  rewrite IH. apply process_item_refs.
Qed.

(** X15: the effect handles only the items it has not seen: run again on
    the same data it changes nothing, and after it the count of handled
    items is the length of the data. *)
Theorem effect_idempotent (data : option (list value)) (s : Page.state) :
  Page.effect data (Page.effect data s) = Page.effect data s
  /\ (forall items, data = Some items ->
        Page.lastDataLength (Page.effect data s) = length items).
Proof.
  destruct data as [items|]; [|split; [reflexivity|discriminate]].
  split; [|intros ? [= <-]; reflexivity].
  unfold Page.effect. cbn [Page.lastDataLength Page.set_lastDataLength].
  rewrite (slice_from_index (length items)), skipn_all. reflexivity.
Qed.

Lemma effect_display (items : list value) (s : Page.state) :
  Page.display (Page.effect (Some items) s)
  = Page.display (fold_left (Page.process_item (Page.messageData s))
                    (skipn (Page.lastDataLength s) items) s).
Proof. unfold Page.effect. rewrite slice_from_index. reflexivity. Qed.

Lemma effect_lastDataLength (items : list value) (s : Page.state) :
  Page.lastDataLength (Page.effect (Some items) s) = length items.
Proof. reflexivity. Qed.

(** X16: what the display shows does not depend on how the data is cut
    into runs of the effect: handling a first part of the data and then the
    whole leaves the sources, the questions, the status and the ticker that
    handling the whole at once leaves. *)
Theorem effect_in_steps (a b : list value) (s : Page.state) :
  Page.lastDataLength s <= length a ->
  Page.display (Page.effect (Some (a ++ b)) (Page.effect (Some a) s))
  = Page.display (Page.effect (Some (a ++ b)) s).
Proof.
  intros L. rewrite !effect_display, effect_lastDataLength.
  assert (E1 : skipn (length a) (a ++ b) = b).
  { rewrite skipn_app, skipn_all, Nat.sub_diag. reflexivity. }
  assert (E2 : skipn (Page.lastDataLength s) (a ++ b)
               = skipn (Page.lastDataLength s) a ++ b).
  { rewrite skipn_app.
    replace (Page.lastDataLength s - length a) with 0 by lia. reflexivity. }
  rewrite E1, E2, fold_left_app.
  apply fold_process_display. apply effect_display.
Qed.

Lemma effect_idempotent_witness :
  Page.lastDataLength
    (Page.effect (Some [ status_event "Starting search..."; complete_event ])
       Page.mount) = 2.
Proof.
  destruct (effect_idempotent
              (Some [ status_event "Starting search..."; complete_event ])
              Page.mount) as [_ Count].
  exact (Count _ eq_refl).
Defined.

Lemma effect_in_steps_witness :
  Page.display
    (Page.effect (Some ([ status_event "Starting search..." ]
                        ++ [ ticker_event (VStr (lit "AAPL")) ]))
       (Page.effect (Some [ status_event "Starting search..." ]) Page.mount))
  = (VArr [], VArr [], VStr (lit "Starting search..."), VStr (lit "AAPL")).
Proof.
  rewrite (effect_in_steps [ status_event "Starting search..." ]
             [ ticker_event (VStr (lit "AAPL")) ] Page.mount).
  - reflexivity.
  - simpl. lia.
Defined.

Lemma Map_get_set_same (m : Page.Map) (k : nat) (v : Page.MessageData.t) :
  Page.Map_get (Page.Map_set m k v) k = Some v.
Proof.
  induction m as [|[k' v'] m IH]; simpl.
  - now rewrite Nat.eqb_refl.
  - destruct (k' =? k) eqn:E; simpl; [now rewrite Nat.eqb_refl|].
    now rewrite E.
Qed.

Lemma Map_get_set_other (m : Page.Map) (k k' : nat) (v : Page.MessageData.t) :
  k' <> k -> Page.Map_get (Page.Map_set m k v) k' = Page.Map_get m k'.
Proof.
  intros N. induction m as [|[k0 v0] m IH]; simpl.
  - apply Nat.eqb_neq in N. rewrite Nat.eqb_sym in N. now rewrite N.
  - destruct (k0 =? k) eqn:E; simpl.
    + apply Nat.eqb_eq in E. subst k0.
      assert (F : (k =? k') = false) by (apply Nat.eqb_neq; congruence).
      now rewrite F.
    + destruct (k0 =? k'); [reflexivity|exact IH].
Qed.

Lemma process_item_messageData (m : Page.Map) (acc s : Page.state) (item : value) :
  Page.currentMessageIndex acc = Page.currentMessageIndex s ->
  Page.messageData (Page.process_item m acc item) = Page.messageData acc
  \/ Page.messageData (Page.process_item m acc item)
     = Page.messageData (Page.process_item m s item).
Proof.
  intros E. unfold Page.process_item. cbv zeta. simpl Page.currentMessageIndex.
  rewrite E. split_conditions; simpl; auto.
Qed.

Lemma fold_process_messageData (m : Page.Map) (all items : list value)
    (acc s : Page.state) :
  incl items all ->
  Page.currentMessageIndex acc = Page.currentMessageIndex s ->
  Page.messageData acc = Page.messageData s
  \/ (exists item, In item all
                   /\ Page.messageData acc
                      = Page.messageData (Page.process_item m s item)) ->
  Page.messageData (fold_left (Page.process_item m) items acc) = Page.messageData s
  \/ (exists item, In item all
                   /\ Page.messageData (fold_left (Page.process_item m) items acc)
                      = Page.messageData (Page.process_item m s item)).
Proof.
  revert acc. induction items as [|x l IH]; intros acc I E H; simpl; [exact H|].
  apply IH.
  - intros y Y. apply I. now right.
  - destruct (process_item_refs m acc x) as [-> _]. exact E.
  - destruct (process_item_messageData m acc s x E) as [-> | ->]; [exact H|].
    right. exists x. split; [apply I; now left|reflexivity].
Qed.

Lemma process_item_other_keys (m : Page.Map) (acc : Page.state) (item : value)
    (k : nat) :
  k <> Page.currentMessageIndex acc ->
  Page.Map_get (Page.messageData (Page.process_item m acc item)) k
  = Page.Map_get (Page.messageData acc) k
  \/ Page.Map_get (Page.messageData (Page.process_item m acc item)) k
     = Page.Map_get m k.
Proof.
  intros N. unfold Page.process_item. cbv zeta. simpl Page.currentMessageIndex.
  split_conditions; simpl; auto; right; now apply Map_get_set_other.
Qed.

Lemma fold_process_other_keys (items : list value) (acc s : Page.state) (k : nat) :
  k <> Page.currentMessageIndex s ->
  Page.currentMessageIndex acc = Page.currentMessageIndex s ->
  Page.Map_get (Page.messageData acc) k = Page.Map_get (Page.messageData s) k ->
  Page.Map_get
    (Page.messageData (fold_left (Page.process_item (Page.messageData s)) items acc))
    k
  = Page.Map_get (Page.messageData s) k.
Proof.
  intros N. revert acc. induction items as [|x l IH]; intros acc E H; simpl;
    [exact H|].
  apply IH.
  - destruct (process_item_refs (Page.messageData s) acc x) as [-> _]. exact E.
  - assert (N' : k <> Page.currentMessageIndex acc) by now rewrite E.
    destruct (process_item_other_keys (Page.messageData s) acc x N') as [-> | ->];
      [exact H|reflexivity].
Qed.

(** X17: a run of the effect leaves in the map of message data the trace
    of at most one of the items it handles: the map after the run is the map
    before it or the map that handling one of the new items alone gives; no
    entry but that of the current message index changes. *)
Theorem effect_keeps_one_update (items : list value) (s : Page.state) :
  (Page.messageData (Page.effect (Some items) s) = Page.messageData s
   \/ exists item,
        In item (skipn (Page.lastDataLength s) items)
        /\ Page.messageData (Page.effect (Some items) s)
           = Page.messageData (Page.process_item (Page.messageData s) s item))
  /\ (forall k, k <> Page.currentMessageIndex s ->
        Page.Map_get (Page.messageData (Page.effect (Some items) s)) k
        = Page.Map_get (Page.messageData s) k).
Proof.
  unfold Page.effect. rewrite slice_from_index.
  cbn [Page.messageData Page.set_lastDataLength]. split.
  - apply fold_process_messageData; [apply incl_refl|reflexivity|now left].
  - intros k N. now apply fold_process_other_keys.
Qed.

Lemma effect_keeps_one_update_witness :
  Page.Map_get
    (Page.messageData
       (Page.effect (Some [ sources_event [ VStr (lit "doc") ];
                            follow_up_event [ lit "q" ] ])
          (Page.set_currentMessageIndex 1 Page.mount))) 0
  = None.
Proof.
  destruct (effect_keeps_one_update
              [ sources_event [ VStr (lit "doc") ]; follow_up_event [ lit "q" ] ]
              (Page.set_currentMessageIndex 1 Page.mount)) as [_ Others].
  apply (Others 0). simpl. lia.
Defined.

(** X18: when a sources item and, after it, a follow-up item are handled
    in the same run of the effect, the display gets both, but the entry
    stored for the current message gets the questions only: its sources are
    those the map held before the run (none when it had no entry). *)
Theorem same_run_loses_sources (handled : list value) (s : Page.state)
    (docs questions : value) :
  Page.lastDataLength s = length handled ->
  truthy docs = true -> truthy questions = true ->
  let items :=
    handled
    ++ [ VObj [ (lit "type", VStr (lit "sources")); (lit "sources", docs) ];
         VObj [ (lit "type", VStr (lit "follow_up_questions"));
                (lit "questions", questions) ] ] in
  Page.sources (Page.effect (Some items) s) = docs
  /\ Page.followUpQuestions (Page.effect (Some items) s) = questions
  /\ Page.Map_get (Page.messageData (Page.effect (Some items) s))
       (Page.currentMessageIndex s)
     = Some (Page.MessageData.mk
               (Page.MessageData.sources
                  (Page.existingData (Page.messageData s) (Page.currentMessageIndex s)))
               questions
               (Page.MessageData.ticker
                  (Page.existingData (Page.messageData s) (Page.currentMessageIndex s)))).
Proof.
  intros L D Q items. unfold Page.effect, items.
  rewrite slice_from_index, L, skipn_app, skipn_all, Nat.sub_diag.
  cbn [skipn app fold_left]. unfold Page.process_item. cbv zeta.
  change (Page.has_type_property
            (VObj [ (lit "type", VStr (lit "sources")); (lit "sources", docs) ]))
    with true.
  change (Page.has_type_property
            (VObj [ (lit "type", VStr (lit "follow_up_questions"));
                    (lit "questions", questions) ]))
    with true.
  cbn [negb].
  change (get (VObj [ (lit "type", VStr (lit "sources")); (lit "sources", docs) ])
            (lit "sources")) with docs.
  change (get (VObj [ (lit "type", VStr (lit "follow_up_questions"));
                      (lit "questions", questions) ]) (lit "questions"))
    with questions.
  rewrite D, Q.
  repeat split; try reflexivity. apply Map_get_set_same.
Qed.

Lemma same_run_loses_sources_witness :
  Page.sources
    (Page.effect (Some ([] ++ [ sources_event [ VStr (lit "doc") ];
                                follow_up_event [ lit "q" ] ])) Page.mount)
  = VArr [ VStr (lit "doc") ]
  /\ Page.Map_get
       (Page.messageData
          (Page.effect (Some ([] ++ [ sources_event [ VStr (lit "doc") ];
                                      follow_up_event [ lit "q" ] ])) Page.mount)) 0
     = Some (Page.MessageData.mk (VArr []) (VArr [ VStr (lit "q") ]) VUndefined).
Proof.
  destruct (same_run_loses_sources [] Page.mount (VArr [ VStr (lit "doc") ])
              (VArr [ VStr (lit "q") ]) eq_refl eq_refl eq_refl)
    as (Shown & _ & Stored).
  split; [exact Shown|exact Stored].
Defined.

(** X19: an item that is not an object with a [type], or whose type is
    none of [status], [ticker], [sources] and [follow_up_questions], changes
    nothing; so the error part and the complete part of the route leave the
    page as it is. *)
Theorem unknown_parts_change_nothing (m : Page.Map) (s : Page.state) :
  (forall item,
     Page.has_type_property item = false
     \/ (Page.type_is item "status" = false /\ Page.type_is item "ticker" = false
         /\ Page.type_is item "sources" = false
         /\ Page.type_is item "follow_up_questions" = false) ->
     Page.process_item m s item = s)
  /\ (forall e, Page.process_item m s (errorData e) = s)
  /\ Page.process_item m s complete_event = s.
Proof.
  split; [|split].
  - intros item [H|(H1 & H2 & H3 & H4)]; unfold Page.process_item; cbv zeta.
    + now rewrite H.
    + rewrite H1, H2, H3, H4. simpl. now destruct (Page.has_type_property item).
  - intros e. reflexivity.
  - reflexivity.
Qed.

Lemma unknown_parts_change_nothing_witness :
  Page.process_item [] Page.mount (VStr (lit "noise")) = Page.mount.
Proof.
  destruct (unknown_parts_change_nothing [] Page.mount) as [Ignored _].
  apply Ignored. left. reflexivity.
Defined.

(** ** The page: the submit handlers and the key *)

Lemma length_zero_iff_nil {A} (l : list A) : (length l =? 0) = true <-> l = [].
Proof. destruct l; simpl; split; congruence. Qed.

(** X20: [handleSearch] submits exactly when the input holds something
    other than white space and a key is known.  A blank input changes
    nothing; without a key the input is kept, as typed, as the pending query
    and the key dialog is opened, and nothing the display shows changes; a
    submitted search clears the sources, the questions and the ticker. *)
Theorem search_submits_iff (input : jstring) (s : Page.state) :
  (In Page.HandleSubmit (snd (Page.handleSearch input s))
   <-> trim input <> [] /\ Page.hasApiKey s = true)
  /\ (trim input = [] -> fst (Page.handleSearch input s) = s)
  /\ (trim input <> [] -> Page.hasApiKey s = false ->
      Page.pendingQuery (fst (Page.handleSearch input s)) = input
      /\ Page.showApiKeyModal (fst (Page.handleSearch input s)) = true
      /\ Page.hasSearched (fst (Page.handleSearch input s)) = Page.hasSearched s
      /\ Page.display (fst (Page.handleSearch input s)) = Page.display s)
  /\ (trim input <> [] -> Page.hasApiKey s = true ->
      Page.hasSearched (fst (Page.handleSearch input s)) = true
      /\ Page.display (fst (Page.handleSearch input s))
         = (VArr [], VArr [], Page.searchStatus s, VNull)).
Proof.
  unfold Page.handleSearch.
  destruct (length (trim input) =? 0) eqn:B.
  - apply length_zero_iff_nil in B. cbn [fst snd].
    split; [|split; [reflexivity|split; intros C; contradiction]].
    split.
    + intros [S|[]]. discriminate S.
    + intros [C _]. contradiction.
  - assert (C : trim input <> []).
    { intros E. apply length_zero_iff_nil in E. congruence. }
    destruct (Page.hasApiKey s) eqn:K; cbn [negb fst snd].
    + split; [|split; [intros E; contradiction|split]].
      * split; [intros _; now split|intros _; simpl; auto].
      * intros _ D. discriminate D.
      * intros _ _. split; reflexivity.
    + split; [|split; [intros E; contradiction|split]].
      * split; [intros [S|[]]; discriminate S|intros [_ D]; discriminate D].
      * intros _ _. repeat split.
      * intros _ D. discriminate D.
Qed.

Lemma search_submits_iff_witness :
  Page.pendingQuery (fst (Page.handleSearch (lit " rust ") Page.mount)) = lit " rust ".
Proof.
  destruct (search_submits_iff (lit " rust ") Page.mount) as (_ & _ & Kept & _).
  destruct Kept as [P _]; [vm_compute; discriminate|reflexivity|exact P].
Defined.

(** X21: [handleChatSubmit] with a known key always submits and clears the
    sources, the questions and the ticker.  Before that it stores the
    sources, the questions and the ticker under the index of the last
    assistant message, when there is one and the sources are not empty; no
    other entry of the map changes, and without assistant message or without
    sources the map stays as it is.  Without a key nothing is submitted. *)
Theorem chat_submit_archives (messages : list value) (input : jstring)
    (s : Page.state) :
  (Page.hasApiKey s = false ->
   snd (Page.handleChatSubmit messages input s) = [ Page.PreventDefault ]
   /\ Page.pendingQuery (fst (Page.handleChatSubmit messages input s)) = input
   /\ Page.messageData (fst (Page.handleChatSubmit messages input s))
      = Page.messageData s)
  /\ (Page.hasApiKey s = true ->
      snd (Page.handleChatSubmit messages input s) = [ Page.HandleSubmit ]
      /\ Page.display (fst (Page.handleChatSubmit messages input s))
         = (VArr [], VArr [], Page.searchStatus s, VNull)
      /\ (forall k, k <> length (Page.assistantMessages messages) - 1 ->
            Page.Map_get
              (Page.messageData (fst (Page.handleChatSubmit messages input s))) k
            = Page.Map_get (Page.messageData s) k)
      /\ (Page.assistantMessages messages <> [] ->
          Page.length_positive (Page.sources s) = true ->
          Page.Map_get
            (Page.messageData (fst (Page.handleChatSubmit messages input s)))
            (length (Page.assistantMessages messages) - 1)
          = Some (Page.MessageData.mk (Page.sources s) (Page.followUpQuestions s)
                    (or_ (Page.currentTicker s) VUndefined)))
      /\ (Page.assistantMessages messages = []
          \/ Page.length_positive (Page.sources s) = false ->
          Page.messageData (fst (Page.handleChatSubmit messages input s))
          = Page.messageData s)).
Proof.
  unfold Page.handleChatSubmit. split; intros K; rewrite K; cbn [negb].
  - repeat split.
  - cbn [fst snd]. split; [reflexivity|].
    destruct ((0 <? length messages) && Page.length_positive (Page.sources s))
      eqn:C;
      [destruct (1 <=? length (Page.assistantMessages messages)) eqn:A|].
    + apply andb_true_iff in C. destruct C as [_ C]. apply Nat.leb_le in A.
      repeat split.
      * intros k N. simpl. now apply Map_get_set_other.
      * intros _ _. simpl. apply Map_get_set_same.
      * intros [E|E]; [rewrite E in A; simpl in A; lia|congruence].
    + apply Nat.leb_gt in A. repeat split.
      intros N. destruct (Page.assistantMessages messages); [contradiction|].
      simpl in A. lia.
    + repeat split. intros N P.
      apply andb_false_iff in C. destruct C as [C|C]; [|congruence].
      destruct messages as [|m l]; [now contradiction N|discriminate C].
Qed.

Lemma chat_submit_archives_witness :
  Page.Map_get
    (Page.messageData
       (fst (Page.handleChatSubmit
               [ message "user" (lit "q"); message "assistant" (lit "a") ] []
               (Page.setHasApiKey true
                  (Page.setSources (VArr [ VStr (lit "doc") ]) Page.mount))))) 0
  = Some (Page.MessageData.mk (VArr [ VStr (lit "doc") ]) (VArr []) VUndefined).
Proof.
  destruct (chat_submit_archives
              [ message "user" (lit "q"); message "assistant" (lit "a") ] []
              (Page.setHasApiKey true
                 (Page.setSources (VArr [ VStr (lit "doc") ]) Page.mount)))
    as [_ Known].
  destruct (Known eq_refl) as (_ & _ & _ & Stored & _).
  apply Stored; [discriminate|reflexivity].
Defined.

Lemma assistantMessages_snoc (messages : list value) (reply : value) :
  get reply (lit "role") = VStr (lit "assistant") ->
  Page.assistantMessages (messages ++ [reply])
  = Page.assistantMessages messages ++ [reply].
Proof.
  intros R. unfold Page.assistantMessages. rewrite filter_app. simpl.
  now rewrite R.
Qed.

(** X22: the index under which the effect files a turn and the index under
    which the next chat submit stores it are the same: when the reply of the
    assistant has joined the messages that [onResponse] counted, the submit
    stores the displayed sources, questions and ticker under the index that
    [onResponse] had set. *)
Theorem archive_lands_on_turn_index (messages : list value) (reply : value)
    (input : jstring) (before s : Page.state) :
  get reply (lit "role") = VStr (lit "assistant") ->
  Page.hasApiKey s = true ->
  Page.length_positive (Page.sources s) = true ->
  Page.Map_get
    (Page.messageData (fst (Page.handleChatSubmit (messages ++ [reply]) input s)))
    (Page.currentMessageIndex (Page.onResponse messages before))
  = Some (Page.MessageData.mk (Page.sources s) (Page.followUpQuestions s)
            (or_ (Page.currentTicker s) VUndefined)).
Proof.
  intros R K P. unfold Page.handleChatSubmit. rewrite K, P.
  rewrite (assistantMessages_snoc _ _ R), !length_app. simpl length.
  replace (0 <? length messages + 1) with true
    by (symmetry; apply Nat.ltb_lt; lia).
  replace (1 <=? length (Page.assistantMessages messages) + 1) with true
    by (symmetry; apply Nat.leb_le; lia).
  cbn [negb andb fst]. simpl Page.messageData.
  replace (length (Page.assistantMessages messages) + 1 - 1)
    with (length (Page.assistantMessages messages)) by lia.
  apply Map_get_set_same.
Qed.

Lemma archive_lands_on_turn_index_witness :
  Page.Map_get
    (Page.messageData
       (fst (Page.handleChatSubmit
               ([ message "user" (lit "q") ] ++ [ message "assistant" (lit "a") ]) []
               (Page.setHasApiKey true
                  (Page.setSources (VArr [ VStr (lit "doc") ]) Page.mount)))))
    (Page.currentMessageIndex (Page.onResponse [ message "user" (lit "q") ] Page.mount))
  = Some (Page.MessageData.mk (VArr [ VStr (lit "doc") ]) (VArr []) VUndefined).
Proof.
  apply (archive_lands_on_turn_index [ message "user" (lit "q") ]
           (message "assistant" (lit "a")) [] Page.mount
           (Page.setHasApiKey true
              (Page.setSources (VArr [ VStr (lit "doc") ]) Page.mount)));
    reflexivity.
Defined.

Lemma getItem_setItem (st : Page.Storage) (k v : jstring) :
  Page.getItem (Page.setItem st k v) k = VStr v.
Proof.
  induction st as [|[k' v'] st IH]; simpl.
  - now rewrite jstring_eqb_refl.
  - destruct (jstring_eqb k' k) eqn:E; simpl; [now rewrite jstring_eqb_refl|].
    now rewrite E.
Qed.

Lemma trim_nil : trim [] = [].
Proof. reflexivity. Qed.

Section SavedKey.

Context {imports : Imports}.

(** X23: a key that is not blank is saved as it was typed and comes back:
    after [handleApiKeySubmit] the storage holds it, a later mount on a
    server without a key of its own reads it back and marks the key as known,
    the chat then sends it in the body, and the route accepts such a request
    without a Firecrawl key in its environment.  Saving shows a toast and,
    when a query is pending, puts it back in the input and sets the timer
    that submits it.  A blank key is not saved. *)
Theorem saved_key_comes_back (s : Page.state) (st : Page.Storage)
    (server : value) (env : process_env) (P : providers)
    (messages : list value) (query : value) :
  (trim (Page.firecrawlApiKey s) = [] ->
   Page.handleApiKeySubmit s st = (s, st, []))
  /\ (trim (Page.firecrawlApiKey s) <> [] ->
      nullish server = false ->
      truthy (get server (lit "hasFirecrawlKey")) = false ->
      let saved := Page.handleApiKeySubmit s st in
      let later := Page.checkApiKey (Some server) (snd (fst saved)) Page.mount in
      Page.hasApiKey (fst (fst saved)) = true
      /\ Page.showApiKeyModal (fst (fst saved)) = false
      /\ Page.getItem (snd (fst saved)) Page.key_name = VStr (Page.firecrawlApiKey s)
      /\ snd saved
         = [ Page.ToastSuccess (lit "API key saved successfully!") ]
           ++ (if 0 <? length (Page.pendingQuery s)
               then [ Page.HandleInputChange (Page.pendingQuery s);
                      Page.SetTimeout 100 ]
               else [])
      /\ Page.firecrawlApiKey later = Page.firecrawlApiKey s
      /\ Page.hasApiKey later = true
      /\ Page.isCheckingEnv later = false
      /\ Page.chat_body later
         = VObj [ (lit "firecrawlApiKey", VStr (Page.firecrawlApiKey s)) ]
      /\ (truthy (extract_query messages query) = true ->
          truthy (OPENAI_API_KEY env) = true ->
          fst (POST env P
                 (mkRequest
                    (inr (Body messages query
                            (get (Page.chat_body later) (lit "firecrawlApiKey"))))))
          = DataStreamResponse (lit "x-vercel-ai-data-stream", lit "v1"))).
Proof.
  unfold Page.handleApiKeySubmit. split.
  - intros B. rewrite B. reflexivity.
  - intros B N F.
    assert (T : (0 <? length (trim (Page.firecrawlApiKey s))) = true).
    { destruct (trim (Page.firecrawlApiKey s)); [contradiction|reflexivity]. }
    assert (K : (0 <? length (Page.firecrawlApiKey s)) = true).
    { destruct (Page.firecrawlApiKey s); [now rewrite trim_nil in B|reflexivity]. }
    rewrite T. cbv zeta. cbn [fst snd].
    assert (C : Page.checkApiKey (Some server)
                  (Page.setItem st Page.key_name (Page.firecrawlApiKey s)) Page.mount
                = Page.setIsCheckingEnv false
                    (Page.setHasApiKey true
                       (Page.setFirecrawlApiKey (Page.firecrawlApiKey s) Page.mount))).
    { unfold Page.checkApiKey. rewrite F, getItem_setItem, K.
      destruct server; try discriminate N; reflexivity. }
    rewrite C. split; [reflexivity|]. split; [reflexivity|].
    split; [apply getItem_setItem|]. split; [reflexivity|]. split; [reflexivity|].
    split; [reflexivity|]. split; [reflexivity|].
    assert (Bd : Page.chat_body
                   (Page.setIsCheckingEnv false
                      (Page.setHasApiKey true
                         (Page.setFirecrawlApiKey (Page.firecrawlApiKey s) Page.mount)))
                 = VObj [ (lit "firecrawlApiKey", VStr (Page.firecrawlApiKey s)) ]).
    { unfold Page.chat_body. cbn [Page.firecrawlApiKey Page.setIsCheckingEnv
        Page.setHasApiKey Page.setFirecrawlApiKey]. now rewrite K. }
    split; [exact Bd|]. intros Q O. rewrite Bd.
    change (get (VObj [ (lit "firecrawlApiKey", VStr (Page.firecrawlApiKey s)) ])
              (lit "firecrawlApiKey")) with (VStr (Page.firecrawlApiKey s)).
    unfold POST. cbn [json]. cbv zeta. rewrite Q, O, truthy_or. cbn [negb].
    assert (S : truthy (VStr (Page.firecrawlApiKey s)) = true).
    { simpl. destruct (Page.firecrawlApiKey s); [discriminate K|reflexivity]. }
    rewrite S. reflexivity.
Qed.

End SavedKey.

Lemma saved_key_comes_back_witness :
  Page.getItem
    (snd (fst (Page.handleApiKeySubmit
                 (Page.setFirecrawlApiKey (lit " fc-1 ") Page.mount) [])))
    Page.key_name
  = VStr (lit " fc-1 ").
Proof.
  destruct (@saved_key_comes_back Sample.imports
              (Page.setFirecrawlApiKey (lit " fc-1 ") Page.mount) []
              (VObj [ (lit "hasFirecrawlKey", VBool false) ])
              Sample.env Sample.good [] VUndefined) as [_ Saved].
  destruct Saved as (_ & _ & Stored & _);
    [vm_compute; discriminate|reflexivity|reflexivity|exact Stored].
Defined.
